(** * gdax-ohlc-import: the candle importer of [main.py]

    A shallow embedding of the importer: the window generator [daterange],
    the retrying fetcher [get], the per-product importer [get_candles], the
    store operations [insert_db] and [get_start_date], and the driver loop of
    [main].  Effects (HTTP requests, sleeps, log records, the SQLite table)
    are threaded through an explicit state with Python exceptions as the
    error half of the result. *)

From Stdlib Require Import ZArith String Ascii List Bool Lia.
Import ListNotations.
Local Open Scope string_scope.
Local Open Scope list_scope.
Local Open Scope Z_scope.

(* ===================================================================== *)
(** ** Dates and durations *)
(* ===================================================================== *)

(** A naive [datetime] is the number of microseconds since
    1970-01-01T00:00:00 on its own (zone-less) time line; a [timedelta] is a
    number of microseconds.  Python bounds [datetime] to the years 1..9999;
    the bound is checked where the program builds a datetime from data
    ([utcfromtimestamp], [strptime]) and not on the additions, which stay
    within a step of values already built. *)
Definition datetime := Z.
Definition timedelta := Z.

Definition usec_per_second : Z := 1000000.
Definition usec_per_day : Z := 86400 * usec_per_second.

(** [timedelta(minutes=n)] *)
Definition minutes (n : Z) : timedelta := n * 60 * usec_per_second.

(** [dt.date()], as the number of whole days since 1970-01-01. *)
Definition date (dt : datetime) : Z := dt / usec_per_day.

(* ===================================================================== *)
(** ** WindowGenerator: [daterange] *)
(* ===================================================================== *)

Definition window := (datetime * datetime)%type.

(** One resumption of the generator: the test of the [while], the pair it
    yields and the cursor it continues from. *)
Definition daterange_next (end_ : datetime) (step : timedelta) (curr : datetime)
  : option (window * datetime) :=
  if curr <? end_ then Some ((curr, curr + step), curr + step) else None.

(** The generator run to exhaustion with a bound on the number of
    resumptions; [None] when the bound is reached before the [while] test
    fails.  (For [step <= 0] and [start < end_] the test never fails; with a
    negative step Python then stops the generator with the [OverflowError]
    of [curr + step] once the cursor is about to leave the years 1..9999,
    which this time line does not have.) *)
Fixpoint daterange_run (fuel : nat) (curr end_ : datetime) (step : timedelta)
  : option (list window) :=
  match daterange_next end_ step curr with
  | None => Some []
  | Some (w, curr') =>
      match fuel with
      | O => None
      | S fuel' =>
          match daterange_run fuel' curr' end_ step with
          | Some ws => Some (w :: ws)
          | None => None
          end
      end
  end.

(** Number of windows for a positive step: the span divided by the step,
    rounded up. *)
Definition daterange_len (start end_ : datetime) (step : timedelta) : nat :=
  Z.to_nat ((end_ - start + step - 1) / step).

(** The windows of [daterange(start, end_, step)] as a list, for a positive
    step ([daterange_run_complete] shows it is what the generator yields). *)
Fixpoint daterange_list (n : nat) (curr end_ : datetime) (step : timedelta)
  : list window :=
  match n with
  | O => []
  | S n' =>
      match daterange_next end_ step curr with
      | None => []
      | Some (w, curr') => w :: daterange_list n' curr' end_ step
      end
  end.

Definition daterange (start end_ : datetime) (step : timedelta) : list window :=
  daterange_list (daterange_len start end_ step) start end_ step.

(* ===================================================================== *)
(** ** Python values, [str] and [int] *)
(* ===================================================================== *)

(** A scalar of a parsed JSON document.  A float is carried as the text
    [str] gives it: the program never computes with one, it only converts it
    to text for the TEXT columns of the table. *)
Inductive pyval : Type :=
| PInt (n : Z)
| PFloat (repr : string)
| PStr (s : string)
| PBool (b : bool)
| PNone.

Definition digit_char (d : Z) : ascii := ascii_of_nat (48 + Z.to_nat d).

(** The [k] low decimal digits of [n], most significant first. *)
Fixpoint dec (k : nat) (n : Z) : string :=
  match k with
  | O => EmptyString
  | S k' => String (digit_char (n / 10 ^ Z.of_nat k'))
                   (dec k' (n mod 10 ^ Z.of_nat k'))
  end.

Fixpoint ndigits_aux (fuel : nat) (n : Z) : nat :=
  match fuel with
  | O => 1
  | S fuel' => if n <? 10 then 1 else S (ndigits_aux fuel' (n / 10))
  end.

(** Number of decimal digits of [n >= 0]; a number has no more decimal
    digits than binary ones, which bounds the recursion. *)
Definition ndigits (n : Z) : nat := ndigits_aux (Z.to_nat (Z.log2 n)) n.

(** [str(n)] for an [int]. *)
Definition str_int (n : Z) : string :=
  if n <? 0 then String "-" (dec (ndigits (- n)) (- n)) else dec (ndigits n) n.

(** [str(v)] *)
Definition py_str (v : pyval) : string :=
  match v with
  | PInt n => str_int n
  | PFloat repr => repr
  | PStr s => s
  | PBool true => "True"
  | PBool false => "False"
  | PNone => "None"
  end.

Definition digit_of_ascii (c : ascii) : option Z :=
  let n := Z.of_nat (nat_of_ascii c) in
  if (48 <=? n) && (n <=? 57) then Some (n - 48) else None.

Fixpoint parse_digits (acc : Z) (s : string) : option Z :=
  match s with
  | EmptyString => Some acc
  | String c s' =>
      match digit_of_ascii c with
      | Some d => parse_digits (acc * 10 + d) s'
      | None => None
      end
  end.

Definition parse_number (s : string) : option Z :=
  match s with
  | EmptyString => None
  | _ => parse_digits 0 s
  end.

(** [int(s)] for a [str]: an optional sign and decimal digits; [None] is
    [ValueError].  (Python also accepts surrounding blanks and [_] between
    digits; [str] of an [int] produces neither.) *)
Definition py_int (s : string) : option Z :=
  match s with
  | String "-" s' => option_map Z.opp (parse_number s')
  | String "+" s' => parse_number s'
  | _ => parse_number s
  end.

(* ===================================================================== *)
(** ** Exceptions and results *)
(* ===================================================================== *)

Inductive exn : Type :=
| HTTPError (status_code : Z)   (* requests.exceptions.HTTPError *)
| ConnectionError               (* timeouts and the other request failures *)
| ValueError
| TypeError
| KeyError (key : string)
| ProgrammingError              (* sqlite3: wrong number of bindings *)
| UnboundLocalError.

Inductive result (A : Type) : Type :=
| Ok (a : A)
| Raise (e : exn).
Arguments Ok {A} a.
Arguments Raise {A} e.

(* ===================================================================== *)
(** ** Dates from text and from timestamps *)
(* ===================================================================== *)

(** Days from 1970-01-01 to the civil date [y-m-d] (proleptic Gregorian). *)
Definition days_from_civil (y m d : Z) : Z :=
  let y' := if m <=? 2 then y - 1 else y in
  let era := y' / 400 in
  let yoe := y' - era * 400 in
  let doy := (153 * (if m <=? 2 then m + 9 else m - 3) + 2) / 5 + d - 1 in
  let doe := yoe * 365 + yoe / 4 - yoe / 100 + doy in
  era * 146097 + doe - 719468.

Definition is_leap (y : Z) : bool :=
  ((y mod 4 =? 0) && negb (y mod 100 =? 0)) || (y mod 400 =? 0).

Definition days_in_month (y m : Z) : Z :=
  if m =? 2 then (if is_leap y then 29 else 28)
  else if (m =? 4) || (m =? 6) || (m =? 9) || (m =? 11) then 30
  else 31.

(** [s.split(sep)] for a one-character separator. *)
Fixpoint split_on (sep : ascii) (s : string) : list string :=
  match s with
  | EmptyString => [EmptyString]
  | String c s' =>
      if Ascii.eqb c sep then EmptyString :: split_on sep s'
      else match split_on sep s' with
           | [] => [String c EmptyString]
           | p :: ps => String c p :: ps
           end
  end.

Definition short_number (s : string) : option Z :=
  if (1 <=? String.length s)%nat && (String.length s <=? 2)%nat
  then parse_digits 0 s else None.

(** [datetime.strptime(s, '%Y-%m-%d')]: four digits of year, one or two of
    month and of day, a date that exists; midnight of that day.  Every
    failure is a [ValueError].  (The blank-padded day [' 7'] that Python
    also reads is not.) *)
Definition strptime_ymd (s : string) : result datetime :=
  match split_on "-" s with
  | [ys; ms; ds] =>
      match (if (String.length ys =? 4)%nat then parse_digits 0 ys else None),
            short_number ms, short_number ds with
      | Some y, Some m, Some d =>
          if (1 <=? y) && (1 <=? m) && (m <=? 12)
             && (1 <=? d) && (d <=? days_in_month y m)
          then Ok (days_from_civil y m d * usec_per_day)
          else Raise ValueError
      | _, _, _ => Raise ValueError
      end
  | _ => Raise ValueError
  end.

Definition min_timestamp : Z := -62135596800.   (* 0001-01-01T00:00:00 *)
Definition max_timestamp : Z := 253402300799.   (* 9999-12-31T23:59:59 *)

(** [datetime.utcfromtimestamp(n)] for an [int]: outside the years 1..9999
    Python raises ([ValueError], or [OverflowError] further out; neither is
    a [TypeError]). *)
Definition utcfromtimestamp (n : Z) : result datetime :=
  if (min_timestamp <=? n) && (n <=? max_timestamp)
  then Ok (n * usec_per_second) else Raise ValueError.

(* ===================================================================== *)
(** ** The table [candles] *)
(* ===================================================================== *)

(** A row, with the columns in the order [create_table] declares them. *)
Record Row : Type := mkRow {
  market : string;
  time : string;
  open : string;
  high : string;
  low : string;
  close : string;
  volume : string
}.

(** [PRIMARY KEY (market, time)] *)
Definition same_key (m t : string) (r : Row) : bool :=
  String.eqb (market r) m && String.eqb (time r) t.

Definition has_key (tbl : list Row) (m t : string) : bool :=
  existsb (same_key m t) tbl.

(** [SELECT * FROM candles WHERE market=? AND time=?] *)
Definition select_row (tbl : list Row) (m t : string) : option Row :=
  find (same_key m t) tbl.

(** [INSERT OR IGNORE]: a row whose key is in the table is dropped. *)
Definition insert_or_ignore (r : Row) (tbl : list Row) : list Row :=
  if has_key tbl (market r) (time r) then tbl else tbl ++ [r].

(** The order of TEXT values (BINARY collation): byte-wise, a proper prefix
    first. *)
Definition text_max (a b : string) : string :=
  if String.ltb a b then b else a.

(** [select max(time) from candles where market=?]; [None] is NULL. *)
Definition select_max_time (tbl : list Row) (product : string) : option string :=
  fold_left
    (fun acc r =>
       if String.eqb (market r) product
       then Some (match acc with
                  | None => time r
                  | Some m => text_max m (time r)
                  end)
       else acc)
    tbl None.

(** [SELECT count( * ) FROM candles] *)
Definition row_count (tbl : list Row) : nat := length tbl.

(* ===================================================================== *)
(** ** The instrument registry *)
(* ===================================================================== *)

Definition API_URL : string := "https://api.gdax.com".

Definition PRODUCTS : list (string * string) :=
  [ ("BCH-BTC", "2018-01-17"); ("BCH-USD", "2017-12-20"); ("BCH-EUR", "2018-01-24");
    ("BTC-EUR", "2015-04-23"); ("BTC-USD", "2015-01-08"); ("BTC-GBP", "2015-04-21");
    ("ETH-BTC", "2016-05-18"); ("ETH-EUR", "2017-05-23"); ("ETH-USD", "2016-05-18");
    ("LTC-BTC", "2016-08-17"); ("LTC-USD", "2016-08-17"); ("LTC-EUR", "2017-05-22") ].

(** [d[k]] on a dict of text. *)
Fixpoint dict_get (d : list (string * string)) (k : string) : result string :=
  match d with
  | [] => Raise (KeyError k)
  | (k', v) :: d' => if String.eqb k' k then Ok v else dict_get d' k
  end.

(* ===================================================================== *)
(** ** The world: upstream API, clock, log *)
(* ===================================================================== *)

(** A request for candles.  The window travels as two ISO 8601 texts; the
    model keeps the datetimes they render. *)
Record Request : Type := mkRequest {
  url : string;
  param_start : datetime;
  param_end : datetime;
  param_granularity : Z
}.

(** The parsed body of a candles response, as the API documents it: an
    array whose items are arrays of scalars.  A body of another JSON shape
    ([null], a number, an object, an array with an item that is not an
    array), on which [len(candles)] in [main] or [len(candle)] in
    [insert_db] raises a [TypeError], is not represented: what is proved
    about batches is proved about answers of the documented shape. *)
Definition Json := list (list pyval).

Record Response : Type := mkResponse {
  status_code : Z;
  body : option Json           (* [None]: the body is not JSON *)
}.

Inductive Reply : Type :=
| Answer (r : Response)
| NoAnswer.                    (* timeout, connection error *)

(** The upstream API: what the [n]-th request of the run is answered. *)
Definition Upstream := nat -> Request -> Reply.

Inductive level : Type := DEBUG | INFO | WARNING | ERROR.

Inductive message : Type :=
| MsgHTTPError (status : Z)
| MsgRetrying
| MsgStartAfterEnd (start_date end_date : datetime)
| MsgWindow (product : string) (w : window) (start_date end_date : datetime)
| MsgImporting (product : string) (day : Z)
| MsgUnableToFetch
| MsgInserting (n : nat)
| MsgResponseLengthInvalid (candle : list pyval)
| MsgResuming (start_date : datetime)
| MsgNoPreviousData
| MsgUpdating (products : list string)
| MsgStartingFrom (i n : nat) (product : string) (start_date : datetime)
| MsgFetched (i n : nat) (product : string) (count : nat).

Record State : Type := mkState {
  clock : datetime;                  (* what [datetime.now()] reads *)
  sent : list Request;               (* the requests made, oldest first *)
  slept : list timedelta;            (* the [time.sleep] calls, oldest first *)
  log : list (level * message);      (* the logger calls, oldest first *)
  table : list Row                   (* the table [candles] *)
}.

(* ===================================================================== *)
(** ** Computations with state and exceptions *)
(* ===================================================================== *)

Definition M (A : Type) : Type := State -> result A * State.

Definition ret {A} (a : A) : M A := fun s => (Ok a, s).

Definition raise {A} (e : exn) : M A := fun s => (Raise e, s).

Definition bind {A B} (m : M A) (k : A -> M B) : M B :=
  fun s => match m s with
           | (Ok a, s') => k a s'
           | (Raise e, s') => (Raise e, s')
           end.

Declare Scope py_scope.
Delimit Scope py_scope with py.
Notation "x <- m ;; k" := (bind m (fun x => k))
  (at level 61, m at next level, right associativity) : py_scope.
Notation "m ;; k" := (bind m (fun _ => k))
  (at level 61, right associativity) : py_scope.
Local Open Scope py_scope.

Definition lift {A} (r : result A) : M A := fun s => (r, s).

(** [try: m except ...: h]; [h e = None] when no clause matches [e]. *)
Definition try_except {A} (m : M A) (h : exn -> option (M A)) : M A :=
  fun s => match m s with
           | (Ok a, s') => (Ok a, s')
           | (Raise e, s') =>
               match h e with
               | Some k => k s'
               | None => (Raise e, s')
               end
           end.

Definition logger (l : level) (msg : message) : M unit :=
  fun s => (Ok tt, mkState (clock s) (sent s) (slept s) (log s ++ [(l, msg)]) (table s)).

(** [time.sleep(d)] *)
Definition sleep (d : timedelta) : M unit :=
  fun s => (Ok tt, mkState (clock s + d) (sent s) (slept s ++ [d]) (log s) (table s)).

Definition seconds_1 : timedelta := usec_per_second.
Definition seconds_0_5 : timedelta := 500000.

Definition get_table : M (list Row) := fun s => (Ok (table s), s).

Definition set_table (tbl : list Row) : M unit :=
  fun s => (Ok tt, mkState (clock s) (sent s) (slept s) (log s) tbl).

(** [with con: m]: commit, or roll back and let the exception through. *)
Definition with_con {A} (m : M A) : M A :=
  fun s => match m s with
           | (Ok a, s') => (Ok a, s')
           | (Raise e, s') =>
               (Raise e, mkState (clock s') (sent s') (slept s') (log s') (table s))
           end.

(* ===================================================================== *)
(** ** ResilientFetcher: [get] *)
(* ===================================================================== *)

Section Importer.

Variable upstream : Upstream.

(** [requests.get(url, params=params, timeout=(10, 10))] *)
Definition requests_get (rq : Request) : M Response :=
  fun s =>
    let s' := mkState (clock s) (sent s ++ [rq]) (slept s) (log s) (table s) in
    match upstream (length (sent s)) rq with
    | Answer r => (Ok r, s')
    | NoAnswer => (Raise ConnectionError, s')
    end.

(** [r.raise_for_status()] *)
Definition raise_for_status (r : Response) : M unit :=
  if (400 <=? status_code r) && (status_code r <? 600)
  then raise (HTTPError (status_code r)) else ret tt.

(** [r.json()] *)
Definition json (r : Response) : M Json :=
  match body r with
  | Some j => ret j
  | None => raise ValueError
  end.

Definition tries : nat := 3.

Inductive loop_exit : Type := Break | Continue.

(** The [for i in range(tries)] of [get] over the indices left, with the
    binding of [r] so far. *)
Fixpoint get_for (rq : Request) (indices : list nat) (r : option Response)
  : M (option Response) :=
  match indices with
  | [] => ret r
  | i :: indices' =>
      r1 <- requests_get rq ;;
      exit <- try_except
                (raise_for_status r1 ;; ret Break)
                (fun e =>
                   match e with
                   | HTTPError status =>
                       Some (if ((status =? 429) || (status =? 500))
                                && (i <? tries - 1)%nat
                             then logger WARNING (MsgHTTPError status) ;;
                                  logger INFO MsgRetrying ;;
                                  sleep seconds_1 ;;
                                  ret Continue
                             else raise e)
                   | _ => None
                   end) ;;
      match exit with
      | Break => ret (Some r1)
      | Continue => get_for rq indices' (Some r1)
      end
  end.

Definition get (rq : Request) : M Json :=
  r <- get_for rq (seq 0 tries) None ;;
  match r with
  | Some r => json r
  | None => raise UnboundLocalError
  end.

(* ===================================================================== *)
(** ** SeriesImporter: [get_candles] *)
(* ===================================================================== *)

Definition candles_request (product : string) (w : window) : Request :=
  mkRequest (API_URL ++ "/products/" ++ product ++ "/candles")%string
            (fst w) (snd w) 60.

(** The [for start, end in daterange(...)] of [get_candles] over the
    windows left.  [get_candles] is a generator; [yield_] is the body of the
    [for] statement that consumes it, run where the generator yields. *)
Fixpoint get_candles_for (yield_ : Json -> M unit) (product : string)
    (start_date end_date : datetime) (windows : list window)
    (previous_start_date : Z) : M unit :=
  match windows with
  | [] => ret tt
  | (start, end_) :: windows' =>
      logger DEBUG (MsgWindow product (start, end_) start_date end_date) ;;
      (if negb (date start =? previous_start_date)
       then logger INFO (MsgImporting product (date start)) else ret tt) ;;
      fetched <- try_except
                   (data <- get (candles_request product (start, end_)) ;;
                    ret (Some data))
                   (fun e =>
                      match e with
                      | HTTPError status =>
                          Some (logger ERROR MsgUnableToFetch ;;
                                logger ERROR (MsgHTTPError status) ;;
                                ret None)
                      | _ => None
                      end) ;;
      match fetched with
      | None => ret tt
      | Some data =>
          yield_ data ;;
          get_candles_for yield_ product start_date end_date windows' (date start)
      end
  end.

(** [get_candles(product, start_date, end_date)] consumed by
    [for candles in ...: yield_ candles]. *)
Definition get_candles (yield_ : Json -> M unit) (product : string)
    (start_date end_date : datetime) : M unit :=
  let d := minutes 300 in
  let end_date := end_date - d in
  if end_date <? start_date
  then logger DEBUG (MsgStartAfterEnd start_date end_date)
  else get_candles_for yield_ product start_date end_date
         (daterange start_date end_date d) (date start_date).

(* ===================================================================== *)
(** ** Store: [insert_db] and [get_start_date] *)
(* ===================================================================== *)

(** One [INSERT OR IGNORE INTO candles(market, time, low, high, open, close,
    volume) VALUES (?, ?, ?, ?, ?, ?, ?)] with its seven bindings. *)
Definition execute_insert (params : list string) : M unit :=
  match params with
  | [p_market; p_time; p_low; p_high; p_open; p_close; p_volume] =>
      tbl <- get_table ;;
      set_table (insert_or_ignore
                   (mkRow p_market p_time p_open p_high p_low p_close p_volume) tbl)
  | _ => raise ProgrammingError
  end.

(** [executemany] pulling from [candle_generator()]. *)
Fixpoint executemany_candles (product : string) (candles : Json) : M unit :=
  match candles with
  | [] => ret tt
  | candle :: candles' =>
      if negb (length candle =? 6)%nat
      then logger WARNING (MsgResponseLengthInvalid candle) ;;
           executemany_candles product candles'
      else let candle := map py_str candle in
           let candle := product :: candle in
           execute_insert candle ;;
           executemany_candles product candles'
  end.

Definition insert_db (product : string) (candles : Json) : M unit :=
  logger DEBUG (MsgInserting (length candles)) ;;
  executemany_candles product candles.

Definition get_start_date (product : string) : M datetime :=
  tbl <- get_table ;;
  match select_max_time tbl product with
  | Some txt =>
      match py_int txt with
      | Some n =>
          start_date <- lift (utcfromtimestamp n) ;;
          logger INFO (MsgResuming start_date) ;;
          ret start_date
      | None => raise ValueError
      end
  | None =>
      (* int(None) raises the TypeError the handler is for *)
      day <- lift (dict_get PRODUCTS product) ;;
      start_date <- lift (strptime_ymd day) ;;
      logger INFO MsgNoPreviousData ;;
      ret start_date
  end.

(* ===================================================================== *)
(** ** ImportDriver: [main] *)
(* ===================================================================== *)

(** The command line, as [argparse] hands it over. *)
Record Args : Type := mkArgs {
  arg_start_date : option string;
  arg_product : option string
}.

(** What the module binds when it is loaded: the default of [end_date] in
    [def get_candles(product, start_date, end_date=datetime.now())] is the
    value of [datetime.now()] at that moment. *)
Record Module : Type := mkModule {
  get_candles_end_date_default : datetime
}.

Definition load_module (s : State) : Module := mkModule (clock s).

(** The start date [main] computes for a product. *)
Definition resolve_start_date (args : Args) (product : string) : M datetime :=
  match arg_start_date args with
  | Some txt => lift (strptime_ymd txt)
  | None => get_start_date product
  end.

(** The body of the [for candles in get_candles(...)] of [main]. *)
Definition persist (i n : nat) (product : string) (candles : Json) : M unit :=
  logger DEBUG (MsgFetched i n product (length candles)) ;;
  with_con (insert_db product candles) ;;
  sleep seconds_0_5.

(** One turn of the [for i, product in enumerate(products_to_update, 1)]. *)
Definition import_product (md : Module) (args : Args) (n i : nat)
    (product : string) : M unit :=
  start_date <- resolve_start_date args product ;;
  logger INFO (MsgStartingFrom i n product start_date) ;;
  get_candles (persist i n product) product start_date
              (get_candles_end_date_default md).

Fixpoint import_products (md : Module) (args : Args) (n i : nat)
    (products : list string) : M unit :=
  match products with
  | [] => ret tt
  | product :: products' =>
      import_product md args n i product ;;
      import_products md args n (S i) products'
  end.

(** [create_table]: [CREATE TABLE IF NOT EXISTS candles] with the columns
    of [Row] and the primary key [insert_or_ignore] enforces.  An existing
    table is left as it is, and one that does not exist yet is the empty
    table, so the statement changes nothing here. *)
Definition create_table : M unit := ret tt.

(** Python truth of [args.product]. *)
Definition selected (p : option string) : option string :=
  match p with
  | Some EmptyString => None
  | _ => p
  end.

(** [main], once the command line is parsed, logging is configured and
    the database is open. *)
Definition main (md : Module) (args : Args) : M unit :=
  create_table ;;
  products_to_update <-
    match selected (arg_product args) with
    | Some p => day <- lift (dict_get PRODUCTS p) ;; ret [(p, day)]
    | None => ret PRODUCTS
    end ;;
  let names := map fst products_to_update in
  logger INFO (MsgUpdating names) ;;
  import_products md args (length names) 1 names.

(** [python main.py ...]: the module is loaded, then [main()] runs. *)
Definition program (args : Args) : M unit :=
  fun s => main (load_module s) args s.

End Importer.

(* ===================================================================== *)
(** ** Vocabulary of the store properties *)
(* ===================================================================== *)

(** A record with exactly the six fields [time, low, high, open, close,
    volume] of the API. *)
Definition well_formed (candle : list pyval) : bool := (length candle =? 6)%nat.

(** The row a well-formed record is stored as. *)
Definition candle_row (product : string) (candle : list pyval) : option Row :=
  match candle with
  | [c_time; c_low; c_high; c_open; c_close; c_volume] =>
      Some (mkRow product (py_str c_time) (py_str c_open) (py_str c_high)
                  (py_str c_low) (py_str c_close) (py_str c_volume))
  | _ => None
  end.

Definition rows_of (product : string) (candles : Json) : list Row :=
  flat_map (fun c => match candle_row product c with
                     | Some r => [r]
                     | None => []
                     end) candles.

Definition insert_all (rows : list Row) (tbl : list Row) : list Row :=
  fold_left (fun t r => insert_or_ignore r t) rows tbl.

(** The warnings a batch is logged with: one for each record that is not
    well-formed, in the order of the batch. *)
Definition warnings_of (candles : Json) : list (level * message) :=
  map (fun c => (WARNING, MsgResponseLengthInvalid c))
      (filter (fun c => negb (well_formed c)) candles).

(** The [time] column of the rows of a product, in table order. *)
Definition times_of (tbl : list Row) (product : string) : list string :=
  map time (filter (fun r => String.eqb (market r) product) tbl).

(** The primary key holds: no two rows with the same market and time. *)
Definition unique_keys (tbl : list Row) : Prop :=
  NoDup (map (fun r => (market r, time r)) tbl).

(* ===================================================================== *)
(** ** Vocabulary of the importer properties *)
(* ===================================================================== *)

(** The state in which [get_candles] calls [get] for a window: the state
    at the top of the loop body with the progress messages logged. *)
Definition before_fetch (product : string) (w : window)
    (start_date end_date : datetime) (previous_start_date : Z) (s : State)
  : State :=
  snd ((logger DEBUG (MsgWindow product w start_date end_date) ;;
        (if negb (date (fst w) =? previous_start_date)
         then logger INFO (MsgImporting product (date (fst w)))
         else ret tt)) s).

(** The state in which [get_candles] returns after [get] has raised the
    HTTP error [status] and left the state [s]. *)
Definition after_abandon (status : Z) (s : State) : State :=
  snd ((logger ERROR MsgUnableToFetch ;; logger ERROR (MsgHTTPError status)) s).

(** Every row of [s] is a row of [s'], unchanged. *)
Definition keeps_rows (s s' : State) : Prop :=
  forall m t r, select_row (table s) m t = Some r ->
                select_row (table s') m t = Some r.

(** An upstream whose only failures are HTTP error statuses: every request
    is answered, and every answer without an error status has a JSON body
    of the documented shape, an array whose items are arrays of scalars
    (a [Json]). *)
Definition http_only (upstream : Upstream) : Prop :=
  forall n rq, exists r,
    upstream n rq = Answer r
    /\ (400 <= status_code r < 600 \/ exists j, body r = Some j).

(** An upstream that answers every request with 200 and a JSON body. *)
Definition always_ok (upstream : Upstream) : Prop :=
  forall n rq, exists j, upstream n rq = Answer (mkResponse 200 (Some j)).

(** The requests made from the state [s] on, given the state reached. *)
Definition requests_since (s s' : State) : list Request :=
  skipn (length (sent s)) (sent s').

(** What a run of [get] logs: for each attempt that is retried, a warning
    with the status answered and the notice of the retry. *)
Definition retry_log (statuses : list Z) : list (level * message) :=
  flat_map (fun status => [(WARNING, MsgHTTPError status); (INFO, MsgRetrying)])
           statuses.

(** An upstream that answers every request with 200 and a body that
    depends on the request alone. *)
Definition answering (f : Request -> Json) : Upstream :=
  fun _ rq => Answer (mkResponse 200 (Some (f rq))).

(** The windows [get_candles] goes through for a start and an end date. *)
Definition windows_for (start_date end_date : datetime) : list window :=
  if end_date - minutes 300 <? start_date then []
  else daterange start_date (end_date - minutes 300) (minutes 300).

(** [datetime.min], 0001-01-01T00:00:00. *)
Definition min_datetime : datetime := min_timestamp * usec_per_second.

(** A stored time [get_start_date] can resume from: the text of an integer
    that is a second of the years 1 to 9999. *)
Definition readable (txt : string) : Prop :=
  exists n, py_int txt = Some n /\ min_timestamp <= n <= max_timestamp.

(* ===================================================================== *)
(** ** Sample worlds *)
(* ===================================================================== *)

(** A record as the API sends it: the time as an integer, the prices and
    the volume as floats. *)
Definition candle (t : Z) (l h o c v : string) : list pyval :=
  [PInt t; PFloat l; PFloat h; PFloat o; PFloat c; PFloat v].

(** Five records for four consecutive minutes; the third has lost its
    volume. *)
Definition sample_batch : Json :=
  [ candle 1516147380 "11205.0" "11226.71" "11226.7" "11205.01" "9.18";
    candle 1516147320 "11226.7" "11250.0" "11250.0" "11226.71" "4.02";
    [PInt 1516147260; PFloat "11249.99"; PFloat "11269.0"; PFloat "11269.0";
     PFloat "11250.0"];
    candle 1516147260 "11249.99" "11269.0" "11269.0" "11250.0" "3.5";
    candle 1516147200 "11268.99" "11300.0" "11300.0" "11269.0" "7.7" ].

(** A stored row of a product at the epoch second [t]. *)
Definition row_at (product : string) (t : Z) : Row :=
  mkRow product (str_int t) "11300.0" "11300.0" "11268.99" "11269.0" "7.7".

(** The command line without [--start-date] and without [--product]. *)
Definition no_override : Args := mkArgs None None.

(** A fresh process at clock [now] over the table [tbl]. *)
Definition initial_state (now : datetime) (tbl : list Row) : State :=
  mkState now [] [] [] tbl.

(** An upstream that answers the requests of a run with the given replies,
    in order, and every later one with [otherwise]. *)
Definition scripted (replies : list Reply) (otherwise : Reply) : Upstream :=
  fun n _ => nth n replies otherwise.

Definition status_only (status : Z) : Reply := Answer (mkResponse status None).

Definition ok_with (j : Json) : Reply := Answer (mkResponse 200 (Some j)).

Definition usec_per_minute : Z := 60 * usec_per_second.

(** One record for each whole minute of [[a, b)], oldest first. *)
Definition candles_between (a b : datetime) : Json :=
  let first := (a + usec_per_minute - 1) / usec_per_minute in
  let last := (b - 1) / usec_per_minute in
  map (fun k => candle ((first + Z.of_nat k) * 60)
                       "11268.99" "11300.0" "11300.0" "11269.0" "7.7")
      (seq 0 (Z.to_nat (last - first + 1))).

(** An upstream that answers every request with the records of the window
    asked for, and with no other. *)
Definition exchange : Upstream :=
  fun _ rq => ok_with (candles_between (param_start rq) (param_end rq)).

(* ===================================================================== *)
(** ** Facts about [daterange] *)
(* ===================================================================== *)

Section Daterange.

Variables (end_ : datetime) (step : timedelta).
Hypothesis step_pos : 0 < step.

Lemma daterange_len_done curr :
  end_ <= curr -> daterange_len curr end_ step = O.
Proof.
  intros H. unfold daterange_len.
  assert ((end_ - curr + step - 1) / step <= 0); [|lia].
  assert ((end_ - curr + step - 1) / step < 1); [|lia].
  apply Z.div_lt_upper_bound; lia.
Qed.

Lemma daterange_len_step curr :
  curr < end_ ->
  daterange_len curr end_ step = S (daterange_len (curr + step) end_ step).
Proof.
  intros H. unfold daterange_len.
  replace (end_ - curr + step - 1) with ((end_ - (curr + step) + step - 1) + 1 * step) by lia.
  rewrite Z.div_add by lia.
  assert (0 <= (end_ - (curr + step) + step - 1) / step).
  { apply Z.div_pos; lia. }
  lia.
Qed.

Lemma daterange_cons curr :
  curr < end_ ->
  daterange curr end_ step = (curr, curr + step) :: daterange (curr + step) end_ step.
Proof.
  intros H. unfold daterange. rewrite (daterange_len_step curr H). simpl.
  unfold daterange_next. apply Z.ltb_lt in H. rewrite H. reflexivity.
Qed.

Lemma daterange_nil curr : end_ <= curr -> daterange curr end_ step = [].
Proof.
  intros H. unfold daterange. rewrite (daterange_len_done curr H). reflexivity.
Qed.

(** Induction along the cursor: the scheme every fact below uses. *)
Lemma daterange_ind (P : datetime -> Prop) :
  (forall curr, end_ <= curr -> P curr) ->
  (forall curr, curr < end_ -> P (curr + step) -> P curr) ->
  forall curr, P curr.
Proof.
  intros Hdone Hstep curr.
  remember (daterange_len curr end_ step) as n eqn:Hn.
  revert curr Hn. induction n as [|n IH]; intros curr Hn.
  - destruct (Z_lt_le_dec curr end_) as [Hlt|Hge]; [|now apply Hdone].
    rewrite (daterange_len_step curr Hlt) in Hn. discriminate.
  - destruct (Z_lt_le_dec curr end_) as [Hlt|Hge]; [|now apply Hdone].
    apply Hstep; [exact Hlt|]. apply IH.
    rewrite (daterange_len_step curr Hlt) in Hn. now injection Hn.
Qed.

Lemma daterange_length curr :
  length (daterange curr end_ step) = daterange_len curr end_ step.
Proof.
  pattern curr. apply daterange_ind; clear curr.
  - intros curr H. now rewrite daterange_nil, daterange_len_done.
  - intros curr H IH. rewrite daterange_cons, daterange_len_step by assumption.
    simpl. now rewrite IH.
Qed.

(** The generator terminates: with any bound of at least
    [daterange_len] resumptions it is exhausted, and it has yielded
    [daterange]. *)
Lemma daterange_run_complete curr fuel :
  (daterange_len curr end_ step <= fuel)%nat ->
  daterange_run fuel curr end_ step = Some (daterange curr end_ step).
Proof.
  revert fuel. pattern curr. apply daterange_ind; clear curr.
  - intros curr H fuel _. rewrite daterange_nil by assumption.
    destruct fuel; simpl; unfold daterange_next;
      (replace (curr <? end_) with false by (symmetry; apply Z.ltb_ge; lia));
      reflexivity.
  - intros curr H IH fuel Hfuel.
    rewrite daterange_len_step in Hfuel by assumption.
    destruct fuel as [|fuel]; [lia|].
    rewrite daterange_cons by assumption. simpl. unfold daterange_next.
    replace (curr <? end_) with true by (symmetry; apply Z.ltb_lt; lia).
    rewrite IH by lia. reflexivity.
Qed.

(** The [i]-th window is [(curr + i*step, curr + (i+1)*step)]. *)
Lemma daterange_nth curr i w :
  nth_error (daterange curr end_ step) i = Some w ->
  w = (curr + Z.of_nat i * step, curr + Z.of_nat i * step + step)
  /\ curr + Z.of_nat i * step < end_.
Proof.
  revert i. pattern curr. apply daterange_ind; clear curr.
  - intros curr H i. rewrite daterange_nil by assumption.
    destruct i; discriminate.
  - intros curr H IH i. rewrite daterange_cons by assumption.
    destruct i as [|i]; cbn [nth_error].
    + intros [= <-]. split; [f_equal; lia | lia].
    + intros Hi. destruct (IH i Hi) as [-> Hlt].
      split; [f_equal; lia | lia].
Qed.

Lemma daterange_nth_exists curr i :
  0 <= Z.of_nat i -> curr + Z.of_nat i * step < end_ ->
  nth_error (daterange curr end_ step) i
  = Some (curr + Z.of_nat i * step, curr + Z.of_nat i * step + step).
Proof.
  intros _. revert curr. induction i as [|i IH]; intros curr Hlt.
  - rewrite daterange_cons by lia. cbn [nth_error]. f_equal. f_equal; lia.
  - assert (curr < end_) by nia.
    rewrite daterange_cons by assumption. cbn [nth_error].
    rewrite IH by nia. f_equal. f_equal; lia.
Qed.

(** Every window starts before [end_]. *)
Lemma daterange_In_start curr w :
  In w (daterange curr end_ step) ->
  curr <= fst w /\ fst w < end_ /\ snd w = fst w + step.
Proof.
  intros Hin. apply In_nth_error in Hin. destruct Hin as [i Hi].
  apply daterange_nth in Hi. destruct Hi as [-> Hlt]. simpl.
  split; [nia|]. split; [lia|reflexivity].
Qed.

End Daterange.

(** With a step that is not positive the [while] test never fails: on the
    unbounded time line no bound on the resumptions exhausts the
    generator. *)
Lemma daterange_run_diverges start end_ step fuel :
  start < end_ -> step <= 0 -> daterange_run fuel start end_ step = None.
Proof.
  intros Hlt Hstep. revert start Hlt.
  induction fuel as [|fuel IH]; intros start Hlt; cbn; unfold daterange_next;
    (replace (start <? end_) with true by (symmetry; apply Z.ltb_lt; lia)).
  - reflexivity.
  - cbn. rewrite IH by lia. reflexivity.
Qed.

(** C4 (window coverage).  For [start < end_] and [step > 0] the generator
    stops after finitely many resumptions, having yielded the windows
    [(start + i*step, start + (i+1)*step)] in order, the first one at
    [start]; each window begins where the one before it ends; every instant
    of [[start, end_)] lies in exactly one window; every window but the last
    ends before [end_] and the last ends at [end_] or after it. *)
Theorem daterange_window_coverage (start end_ : datetime) (step : timedelta) :
  start < end_ -> 0 < step ->
  let ws := daterange start end_ step in
  (forall fuel, (daterange_len start end_ step <= fuel)%nat ->
     daterange_run fuel start end_ step = Some ws)
  /\ nth_error ws 0 = Some (start, start + step)
  /\ (forall i w, nth_error ws i = Some w ->
        w = (start + Z.of_nat i * step, start + Z.of_nat i * step + step))
  /\ (forall i w w', nth_error ws i = Some w -> nth_error ws (S i) = Some w' ->
        fst w' = snd w)
  /\ (forall t, start <= t < end_ ->
        exists i w, nth_error ws i = Some w /\ fst w <= t < snd w
          /\ forall j w', nth_error ws j = Some w' -> fst w' <= t < snd w' -> j = i)
  /\ (forall i w, nth_error ws i = Some w -> (S i < length ws)%nat -> snd w < end_)
  /\ (exists w, nth_error ws (length ws - 1) = Some w /\ end_ <= snd w).
Proof.
  intros Hlt Hstep ws.
  assert (Hnth : forall i w, nth_error ws i = Some w ->
            w = (start + Z.of_nat i * step, start + Z.of_nat i * step + step)
            /\ start + Z.of_nat i * step < end_).
  { intros i w. apply daterange_nth; assumption. }
  assert (Hex : forall i, start + Z.of_nat i * step < end_ ->
            nth_error ws i
            = Some (start + Z.of_nat i * step, start + Z.of_nat i * step + step)).
  { intros i. apply daterange_nth_exists; [assumption|lia]. }
  split; [intros fuel; now apply daterange_run_complete|].
  split; [unfold ws; now rewrite daterange_cons|].
  split; [intros i w Hi; now destruct (Hnth i w Hi)|].
  split.
  { intros i w w' Hi Hi'.
    destruct (Hnth _ _ Hi) as [-> _]. destruct (Hnth _ _ Hi') as [-> _].
    cbn [fst snd]. lia. }
  split.
  { intros t [Hlo Hhi].
    set (q := (t - start) / step).
    assert (Hq0 : 0 <= q) by (apply Z.div_pos; lia).
    assert (Hq : step * q <= t - start < step * q + step).
    { pose proof (Z.mul_div_le (t - start) step Hstep).
      pose proof (Z.mul_succ_div_gt (t - start) step Hstep). fold q in H, H0. lia. }
    exists (Z.to_nat q). eexists. split.
    - apply Hex. rewrite Z2Nat.id by assumption. nia.
    - cbn [fst snd]. rewrite Z2Nat.id by assumption.
      split; [nia|].
      intros j w' Hj Hin. destruct (Hnth _ _ Hj) as [-> _].
      cbn [fst snd] in Hin.
      assert (Z.of_nat j = q) by nia. lia. }
  split.
  { intros i w Hi Hlen.
    destruct (nth_error ws (S i)) as [w'|] eqn:Hi'.
    - destruct (Hnth _ _ Hi) as [-> _]. destruct (Hnth _ _ Hi') as [_ Hb].
      cbn [snd]. lia.
    - apply nth_error_None in Hi'. lia. }
  assert (Hne : (0 < length ws)%nat).
  { unfold ws. rewrite daterange_cons by assumption. simpl. lia. }
  destruct (nth_error ws (length ws - 1)) as [w|] eqn:Hlast.
  - exists w. split; [reflexivity|].
    destruct (Hnth _ _ Hlast) as [-> _]. cbn [snd].
    destruct (Z_lt_le_dec (start + Z.of_nat (S (length ws - 1)) * step) end_)
      as [Hin|Hout]; [|lia].
    apply Hex in Hin.
    assert (Hnone : nth_error ws (S (length ws - 1)) = None)
      by (apply nth_error_None; lia).
    congruence.
  - apply nth_error_None in Hlast. lia.
Qed.

(** C4 at [start = 0], [end_ = 10], [step = 3]: four windows, the last one
    ending at 12. *)
Lemma daterange_window_coverage_witness :
  0 < 10 /\ 0 < 3 /\
  (forall i w, nth_error (daterange 0 10 3) i = Some w ->
     w = (0 + Z.of_nat i * 3, 0 + Z.of_nat i * 3 + 3)).
Proof.
  split; [lia|]. split; [lia|].
  exact (proj1 (proj2 (proj2
           (daterange_window_coverage 0 10 3 ltac:(lia) ltac:(lia))))).
Defined.

(* ===================================================================== *)
(** ** Facts about [get] *)
(* ===================================================================== *)

Section Get.

Variable upstream : Upstream.

(** An attempt that is answered with 429 or 500 before the last index:
    a warning, a notice, one second of sleep, and the next attempt. *)
Lemma get_for_retry rq i indices r0 s r :
  upstream (length (sent s)) rq = Answer r ->
  status_code r = 429 \/ status_code r = 500 ->
  (i < tries - 1)%nat ->
  get_for upstream rq (i :: indices) r0 s
  = get_for upstream rq indices (Some r)
      (mkState (clock s + seconds_1) (sent s ++ [rq]) (slept s ++ [seconds_1])
               ((log s ++ [(WARNING, MsgHTTPError (status_code r))])
                  ++ [(INFO, MsgRetrying)])
               (table s)).
Proof.
  intros Hup Hst Hi. apply Nat.ltb_lt in Hi.
  change ((i <=? 1)%nat = true) in Hi.
  cbn [get_for]. unfold bind at 1. unfold requests_get. rewrite Hup.
  unfold bind at 1. unfold try_except, raise_for_status.
  destruct r as [st b]. cbn [status_code] in *.
  destruct Hst as [-> | ->]; cbn; rewrite Hi; reflexivity.
Qed.

(** An attempt that is answered with an error status which is not retried
    (another status than 429 and 500, or the last index): the error is
    raised at once, with nothing logged and no sleep. *)
Lemma get_for_raise rq i indices r0 s r :
  upstream (length (sent s)) rq = Answer r ->
  400 <= status_code r < 600 ->
  (status_code r <> 429 /\ status_code r <> 500) \/ (tries - 1 <= i)%nat ->
  get_for upstream rq (i :: indices) r0 s
  = (Raise (HTTPError (status_code r)),
     mkState (clock s) (sent s ++ [rq]) (slept s) (log s) (table s)).
Proof.
  intros Hup Hst Hno.
  cbn [get_for]. unfold bind at 1. unfold requests_get. rewrite Hup.
  unfold bind at 1. unfold try_except, raise_for_status.
  replace ((400 <=? status_code r) && (status_code r <? 600)) with true
    by (symmetry; apply andb_true_iff; split; [apply Z.leb_le|apply Z.ltb_lt]; lia).
  cbn -[Nat.ltb Nat.sub tries Z.eqb].
  replace (((status_code r =? 429) || (status_code r =? 500))
           && (i <? tries - 1)%nat) with false; [reflexivity|].
  symmetry. apply andb_false_iff. destruct Hno as [[H1 H2] | H].
  - left. apply orb_false_iff. split; apply Z.eqb_neq; assumption.
  - right. apply Nat.ltb_ge. exact H.
Qed.

(** An attempt that is answered without an error status leaves the loop. *)
Lemma get_for_break rq i indices r0 s r :
  upstream (length (sent s)) rq = Answer r ->
  ~ (400 <= status_code r < 600) ->
  get_for upstream rq (i :: indices) r0 s
  = (Ok (Some r), mkState (clock s) (sent s ++ [rq]) (slept s) (log s) (table s)).
Proof.
  intros Hup Hst.
  cbn [get_for]. unfold bind at 1. unfold requests_get. rewrite Hup.
  unfold bind at 1. unfold try_except, raise_for_status.
  replace ((400 <=? status_code r) && (status_code r <? 600)) with false;
    [reflexivity|].
  symmetry. apply andb_false_iff.
  destruct (Z_lt_le_dec (status_code r) 400); [left; apply Z.leb_gt; lia|].
  right. apply Z.ltb_ge. lia.
Qed.

(** A request that is not answered: the exception passes through [get]. *)
Lemma get_for_no_answer rq i indices r0 s :
  upstream (length (sent s)) rq = NoAnswer ->
  get_for upstream rq (i :: indices) r0 s
  = (Raise ConnectionError,
     mkState (clock s) (sent s ++ [rq]) (slept s) (log s) (table s)).
Proof.
  intros Hup. cbn [get_for]. unfold bind at 1. unfold requests_get.
  rewrite Hup. reflexivity.
Qed.

End Get.

Lemma length_snoc {A} (l : list A) (x : A) : length (l ++ [x]) = S (length l).
Proof. rewrite length_app. simpl. lia. Qed.

Ltac finish_get :=
  repeat split; intros; try reflexivity; try congruence;
  try (unfold seconds_1, usec_per_second in *; lia);
  try (exfalso; lia).

(** C2 (retry ceiling).  When the first two attempts of [get] are answered
    with 429 (or 500): if the third is answered without an error status and
    with a JSON body, [get] returns that body; if the third is answered with
    429 or 500 too, [get] raises that HTTP error.  Either way exactly three
    requests were made, and exactly two sleeps of one second, one between
    each two consecutive attempts. *)
Theorem get_retry_ceiling (upstream : Upstream) (rq : Request) (s : State)
    (r1 r2 r3 : Response) :
  upstream (length (sent s)) rq = Answer r1 ->
  upstream (S (length (sent s))) rq = Answer r2 ->
  upstream (S (S (length (sent s)))) rq = Answer r3 ->
  status_code r1 = 429 \/ status_code r1 = 500 ->
  status_code r2 = 429 \/ status_code r2 = 500 ->
  let out := get upstream rq s in
  sent (snd out) = sent s ++ [rq; rq; rq]
  /\ slept (snd out) = slept s ++ [seconds_1; seconds_1]
  /\ clock (snd out) = clock s + 2 * seconds_1
  /\ table (snd out) = table s
  /\ (forall j, ~ (400 <= status_code r3 < 600) -> body r3 = Some j ->
        fst out = Ok j)
  /\ (status_code r3 = 429 \/ status_code r3 = 500 ->
        fst out = Raise (HTTPError (status_code r3))).
Proof.
  intros H1 H2 H3 T1 T2 out.
  assert (Hget : get upstream rq s
                 = bind (get_for upstream rq [0; 1; 2]%nat None)
                     (fun r => match r with
                               | Some r => json r
                               | None => raise UnboundLocalError
                               end) s) by reflexivity.
  unfold bind in Hget.
  rewrite (get_for_retry upstream rq 0 [1; 2]%nat None s r1 H1 T1) in Hget
    by (unfold tries; lia).
  set (s1 := mkState _ _ _ _ _) in Hget.
  assert (H2' : upstream (length (sent s1)) rq = Answer r2)
    by (unfold s1; cbn [sent]; rewrite length_snoc; exact H2).
  rewrite (get_for_retry upstream rq 1 [2]%nat (Some r1) s1 r2 H2' T2) in Hget
    by (unfold tries; lia).
  set (s2 := mkState _ _ _ _ _) in Hget.
  assert (H3' : upstream (length (sent s2)) rq = Answer r3)
    by (unfold s2, s1; cbn [sent]; rewrite !length_snoc; exact H3).
  destruct (Z_lt_le_dec (status_code r3) 400) as [Hlo|Hlo];
    [|destruct (Z_lt_le_dec (status_code r3) 600) as [Hhi|Hhi]].
  - rewrite (get_for_break upstream rq 2 []%nat (Some r2) s2 r3 H3') in Hget by lia.
    unfold out. rewrite Hget. unfold json.
    destruct (body r3) as [j|]; cbn; unfold s2, s1; cbn;
      rewrite <- !app_assoc; cbn; finish_get.
  - rewrite (get_for_raise upstream rq 2 []%nat (Some r2) s2 r3 H3') in Hget
      by (unfold tries; lia).
    unfold out. rewrite Hget. cbn. unfold s2, s1; cbn.
    rewrite <- !app_assoc; cbn. finish_get.
  - rewrite (get_for_break upstream rq 2 []%nat (Some r2) s2 r3 H3') in Hget by lia.
    unfold out. rewrite Hget. unfold json.
    destruct (body r3) as [j|]; cbn; unfold s2, s1; cbn;
      rewrite <- !app_assoc; cbn; finish_get.
Qed.

(** C2 on an upstream that answers 429, 429 and then 200 with an empty
    array, and on one that answers 429, 500 and 429. *)
Lemma get_retry_ceiling_witness :
  let rq := candles_request "BTC-USD" (0, minutes 300) in
  let recovers := scripted [status_only 429; status_only 429; ok_with []] NoAnswer in
  let gives_up := scripted [status_only 429; status_only 500; status_only 429]
                           (ok_with []) in
  (fst (get recovers rq (initial_state 0 [])) = Ok []
   /\ sent (snd (get recovers rq (initial_state 0 []))) = [rq; rq; rq]
   /\ slept (snd (get recovers rq (initial_state 0 []))) = [seconds_1; seconds_1])
  /\ (fst (get gives_up rq (initial_state 0 [])) = Raise (HTTPError 429)
      /\ sent (snd (get gives_up rq (initial_state 0 []))) = [rq; rq; rq]
      /\ slept (snd (get gives_up rq (initial_state 0 []))) = [seconds_1; seconds_1]).
Proof.
  intros rq recovers gives_up. split.
  - pose proof (get_retry_ceiling recovers rq (initial_state 0 [])
                  (mkResponse 429 None) (mkResponse 429 None)
                  (mkResponse 200 (Some []))
                  eq_refl eq_refl eq_refl (or_introl eq_refl) (or_introl eq_refl))
      as H.
    cbv zeta in H. destruct H as (Hsent & Hslept & _ & _ & Hok & _).
    split; [|split].
    + apply Hok; [cbn; lia | reflexivity].
    + exact Hsent.
    + exact Hslept.
  - pose proof (get_retry_ceiling gives_up rq (initial_state 0 [])
                  (mkResponse 429 None) (mkResponse 500 None)
                  (mkResponse 429 None)
                  eq_refl eq_refl eq_refl (or_introl eq_refl) (or_intror eq_refl))
      as H.
    cbv zeta in H. destruct H as (Hsent & Hslept & _ & _ & _ & Hraise).
    split; [|split].
    + exact (Hraise (or_introl eq_refl)).
    + exact Hsent.
    + exact Hslept.
Defined.

(** C6 (no retry on a permanent error).  When an attempt of [get] is
    answered with an HTTP error status other than 429 and 500, [get] raises
    that error at once: the request just made is the last one, there is no
    sleep and nothing is logged.  For the first attempt this is exactly one
    request. *)
Theorem get_permanent_error (upstream : Upstream) (rq : Request) (s : State)
    (r : Response) :
  upstream (length (sent s)) rq = Answer r ->
  400 <= status_code r < 600 ->
  status_code r <> 429 -> status_code r <> 500 ->
  get upstream rq s
  = (Raise (HTTPError (status_code r)),
     mkState (clock s) (sent s ++ [rq]) (slept s) (log s) (table s)).
Proof.
  intros Hup Hst H429 H500.
  unfold get. cbn [seq tries]. unfold bind.
  rewrite (get_for_raise upstream rq 0 [1; 2]%nat None s r Hup Hst)
    by (left; split; assumption).
  reflexivity.
Qed.

(** C6 on an upstream that answers 403. *)
Lemma get_permanent_error_witness :
  let up := scripted [status_only 403] (ok_with []) in
  let rq := candles_request "BTC-USD" (0, minutes 300) in
  get up rq (initial_state 0 [])
  = (Raise (HTTPError 403), mkState 0 [rq] [] [] []).
Proof.
  intros up rq.
  exact (get_permanent_error up rq (initial_state 0 []) (mkResponse 403 None)
           eq_refl ltac:(cbn; lia) ltac:(cbn; lia) ltac:(cbn; lia)).
Defined.

(* ===================================================================== *)
(** ** Facts about the table *)
(* ===================================================================== *)

Lemma same_key_true m t r :
  same_key m t r = true <-> market r = m /\ time r = t.
Proof.
  unfold same_key. rewrite andb_true_iff, !String.eqb_eq. tauto.
Qed.

Lemma has_key_app tbl tbl' m t :
  has_key (tbl ++ tbl') m t = has_key tbl m t || has_key tbl' m t.
Proof. unfold has_key. apply existsb_app. Qed.

Lemma has_key_false_select tbl m t :
  has_key tbl m t = false <-> select_row tbl m t = None.
Proof.
  unfold has_key, select_row. induction tbl as [|r tbl IH]; cbn; [tauto|].
  destruct (same_key m t r); cbn; [|exact IH]. split; discriminate.
Qed.

Lemma select_row_app_l tbl tbl' m t r :
  select_row tbl m t = Some r -> select_row (tbl ++ tbl') m t = Some r.
Proof.
  unfold select_row. induction tbl as [|r0 tbl IH]; cbn; [discriminate|].
  destruct (same_key m t r0); [trivial|exact IH].
Qed.

Lemma select_row_app_r tbl tbl' m t :
  select_row tbl m t = None ->
  select_row (tbl ++ tbl') m t = select_row tbl' m t.
Proof.
  unfold select_row. induction tbl as [|r0 tbl IH]; cbn; [trivial|].
  destruct (same_key m t r0); [discriminate|exact IH].
Qed.

(** [INSERT OR IGNORE] leaves every row of the table as it is. *)
Lemma insert_or_ignore_keeps r tbl m t r0 :
  select_row tbl m t = Some r0 ->
  select_row (insert_or_ignore r tbl) m t = Some r0.
Proof.
  intros H. unfold insert_or_ignore.
  destruct (has_key tbl (market r) (time r)); [exact H|].
  now apply select_row_app_l.
Qed.

Lemma insert_or_ignore_has_key r tbl m t :
  has_key (insert_or_ignore r tbl) m t = has_key tbl m t || same_key m t r.
Proof.
  unfold insert_or_ignore.
  destruct (has_key tbl (market r) (time r)) eqn:Hk.
  - destruct (same_key m t r) eqn:Hs; [|now rewrite orb_false_r].
    apply same_key_true in Hs. destruct Hs as [<- <-].
    now rewrite Hk.
  - rewrite has_key_app. cbn. now rewrite orb_false_r.
Qed.

Lemma insert_all_cons r rows tbl :
  insert_all (r :: rows) tbl = insert_all rows (insert_or_ignore r tbl).
Proof. reflexivity. Qed.

Lemma insert_all_keeps rows tbl m t r0 :
  select_row tbl m t = Some r0 ->
  select_row (insert_all rows tbl) m t = Some r0.
Proof.
  revert tbl. induction rows as [|r rows IH]; intros tbl H; [exact H|].
  rewrite insert_all_cons. apply IH. now apply insert_or_ignore_keeps.
Qed.

Lemma insert_all_has_key rows tbl m t :
  has_key (insert_all rows tbl) m t = has_key tbl m t || existsb (same_key m t) rows.
Proof.
  revert tbl. induction rows as [|r rows IH]; intros tbl.
  - cbn. now rewrite orb_false_r.
  - rewrite insert_all_cons, IH, insert_or_ignore_has_key. cbn [existsb].
    now rewrite orb_assoc.
Qed.

Lemma insert_all_app rows rows' tbl :
  insert_all (rows ++ rows') tbl = insert_all rows' (insert_all rows tbl).
Proof. unfold insert_all. apply fold_left_app. Qed.

(** Rows whose keys are all in the table change nothing. *)
Lemma insert_all_present rows tbl :
  (forall r, In r rows -> has_key tbl (market r) (time r) = true) ->
  insert_all rows tbl = tbl.
Proof.
  induction rows as [|r rows IH]; intros H; [reflexivity|].
  rewrite insert_all_cons.
  assert (Hr : insert_or_ignore r tbl = tbl).
  { unfold insert_or_ignore. now rewrite (H r (or_introl eq_refl)). }
  rewrite Hr. apply IH. intros r' Hin. apply H. now right.
Qed.

Lemma insert_all_idempotent rows tbl :
  insert_all rows (insert_all rows tbl) = insert_all rows tbl.
Proof.
  apply insert_all_present. intros r Hin.
  rewrite insert_all_has_key. apply orb_true_iff. right.
  apply existsb_exists. exists r. split; [exact Hin|].
  now apply same_key_true.
Qed.

(** Rows with fresh keys, different from one another, are all added. *)
Lemma insert_all_fresh rows tbl :
  NoDup (map (fun r => (market r, time r)) rows) ->
  (forall r, In r rows -> has_key tbl (market r) (time r) = false) ->
  insert_all rows tbl = tbl ++ rows.
Proof.
  revert tbl. induction rows as [|r rows IH]; intros tbl Hnd Hfresh.
  - cbn. now rewrite app_nil_r.
  - rewrite insert_all_cons. cbn [map] in Hnd.
    inversion Hnd as [|k ks Hnotin Hnd']; subst.
    assert (Hr : insert_or_ignore r tbl = tbl ++ [r]).
    { unfold insert_or_ignore. now rewrite (Hfresh r (or_introl eq_refl)). }
    rewrite Hr, IH; [now rewrite <- app_assoc|exact Hnd'|].
    intros r' Hin. rewrite has_key_app, (Hfresh r' (or_intror Hin)). cbn.
    rewrite orb_false_r. destruct (same_key (market r') (time r') r) eqn:Hs;
      [|reflexivity].
    apply same_key_true in Hs. destruct Hs as [Hm Ht].
    exfalso. apply Hnotin. rewrite Hm, Ht.
    apply (in_map (fun r => (market r, time r))). exact Hin.
Qed.

Lemma insert_or_ignore_unique r tbl :
  unique_keys tbl -> unique_keys (insert_or_ignore r tbl).
Proof.
  unfold unique_keys, insert_or_ignore. intros H.
  destruct (has_key tbl (market r) (time r)) eqn:Hk; [exact H|].
  rewrite map_app. cbn. apply NoDup_app; [exact H|repeat constructor; intros []|].
  intros k Hin [<-|[]].
  apply in_map_iff in Hin. destruct Hin as (r' & Hkey & Hin).
  injection Hkey as Hm Ht.
  assert (has_key tbl (market r) (time r) = true); [|congruence].
  unfold has_key. apply existsb_exists. exists r'. split; [exact Hin|].
  now apply same_key_true.
Qed.

Lemma insert_all_unique rows tbl :
  unique_keys tbl -> unique_keys (insert_all rows tbl).
Proof.
  revert tbl. induction rows as [|r rows IH]; intros tbl H; [exact H|].
  rewrite insert_all_cons. apply IH. now apply insert_or_ignore_unique.
Qed.

(* ===================================================================== *)
(** ** Facts about [insert_db] *)
(* ===================================================================== *)

Lemma well_formed_shape candle :
  well_formed candle = true ->
  exists t l h o c v, candle = [t; l; h; o; c; v].
Proof.
  unfold well_formed. intros H. apply Nat.eqb_eq in H.
  do 6 (destruct candle as [|? candle]; [discriminate|]).
  destruct candle; [|discriminate]. now repeat eexists.
Qed.

Lemma candle_row_malformed product candle :
  well_formed candle = false -> candle_row product candle = None.
Proof.
  unfold well_formed. intros H. apply Nat.eqb_neq in H.
  do 6 (destruct candle as [|? candle]; [reflexivity|]).
  destruct candle; [now contradiction H|reflexivity].
Qed.

Lemma rows_of_app product a b :
  rows_of product (a ++ b) = rows_of product a ++ rows_of product b.
Proof. unfold rows_of. apply flat_map_app. Qed.

Lemma rows_of_cons_wf product t l h o c v candles :
  rows_of product ([t; l; h; o; c; v] :: candles)
  = mkRow product (py_str t) (py_str o) (py_str h) (py_str l) (py_str c) (py_str v)
      :: rows_of product candles.
Proof. reflexivity. Qed.

Lemma rows_of_cons_malformed product candle candles :
  well_formed candle = false ->
  rows_of product (candle :: candles) = rows_of product candles.
Proof.
  intros H. unfold rows_of. cbn [flat_map].
  now rewrite (candle_row_malformed product candle H).
Qed.

Lemma rows_of_length product candles :
  length (rows_of product candles) = length (filter well_formed candles).
Proof.
  induction candles as [|c cs IH]; [reflexivity|]. cbn [filter].
  destruct (well_formed c) eqn:Hw.
  - destruct (well_formed_shape c Hw) as (t & l & h & o & cl & v & ->).
    rewrite rows_of_cons_wf. cbn [length]. now rewrite IH.
  - now rewrite rows_of_cons_malformed.
Qed.

Lemma rows_of_market product candles r :
  In r (rows_of product candles) -> market r = product.
Proof.
  induction candles as [|c cs IH]; [intros []|].
  destruct (well_formed c) eqn:Hw.
  - destruct (well_formed_shape c Hw) as (t & l & h & o & cl & v & ->).
    rewrite rows_of_cons_wf. intros [<-|Hin]; [reflexivity|now apply IH].
  - rewrite rows_of_cons_malformed by assumption. exact IH.
Qed.

(** What [executemany] does with a batch: it always completes; the log
    grows by the warnings of the batch and the table by the rows of its
    well-formed records, inserted or ignored in order. *)
Lemma executemany_candles_spec product candles s :
  executemany_candles product candles s
  = (Ok tt, mkState (clock s) (sent s) (slept s) (log s ++ warnings_of candles)
                    (insert_all (rows_of product candles) (table s))).
Proof.
  revert s. induction candles as [|c cs IH]; intros s.
  - cbn. unfold ret. rewrite app_nil_r. now destruct s.
  - cbn [executemany_candles]. fold (well_formed c).
    destruct (well_formed c) eqn:Hw; cbn [negb].
    + destruct (well_formed_shape c Hw) as (t & l & h & o & cl & v & ->).
      unfold bind, execute_insert. cbn [map]. unfold bind, get_table, set_table.
      rewrite IH. cbn [clock sent slept log table].
      rewrite rows_of_cons_wf, insert_all_cons.
      unfold warnings_of. cbn [filter]. rewrite Hw. cbn [negb].
      reflexivity.
    + unfold bind, logger. rewrite IH. cbn [clock sent slept log table].
      rewrite rows_of_cons_malformed by assumption.
      unfold warnings_of. cbn [filter]. rewrite Hw. cbn [negb map].
      rewrite <- app_assoc. reflexivity.
Qed.

Lemma insert_db_spec product candles s :
  insert_db product candles s
  = (Ok tt,
     mkState (clock s) (sent s) (slept s)
             (log s ++ (DEBUG, MsgInserting (length candles)) :: warnings_of candles)
             (insert_all (rows_of product candles) (table s))).
Proof.
  unfold insert_db, bind, logger. rewrite executemany_candles_spec.
  cbn [clock sent slept log table]. now rewrite <- app_assoc.
Qed.

Lemma rows_of_filter product candles :
  rows_of product (filter well_formed candles) = rows_of product candles.
Proof.
  induction candles as [|c cs IH]; [reflexivity|]. cbn [filter].
  destruct (well_formed c) eqn:Hw.
  - destruct (well_formed_shape c Hw) as (t & l & h & o & cl & v & ->).
    rewrite !rows_of_cons_wf. now rewrite IH.
  - now rewrite rows_of_cons_malformed.
Qed.

Lemma rows_of_keys product candles :
  NoDup (map time (rows_of product candles)) ->
  NoDup (map (fun r => (market r, time r)) (rows_of product candles)).
Proof.
  induction (rows_of product candles) as [|r rows IH]; cbn; [constructor|].
  intros H. inversion H as [|x xs Hnotin Hnd]; subst.
  constructor; [|now apply IH].
  intros Hin. apply Hnotin. apply in_map_iff in Hin.
  destruct Hin as (r' & Hkey & Hin). injection Hkey as _ Ht.
  rewrite <- Ht. now apply in_map.
Qed.

Lemma filter_split_length {A} (f : A -> bool) (l : list A) :
  (length (filter f l) + length (filter (fun x => negb (f x)) l))%nat = length l.
Proof.
  induction l as [|x l IH]; [reflexivity|]. cbn.
  destruct (f x); cbn; lia.
Qed.

(** C5 (idempotent insert).  Inserting a batch a second time through
    [insert_db] changes neither the table nor, therefore, its row count; both
    calls complete.  A row that is in the table before an insert is still
    there, unchanged, after it, and the primary key [(market, time)] keeps
    holding.  This is so for every batch, the well-formed ones among them. *)
Theorem insert_db_idempotent (product : string) (candles : Json) (s : State) :
  let once := insert_db product candles s in
  let twice := insert_db product candles (snd once) in
  fst once = Ok tt /\ fst twice = Ok tt
  /\ table (snd twice) = table (snd once)
  /\ row_count (table (snd twice)) = row_count (table (snd once))
  /\ (forall m t r, select_row (table s) m t = Some r ->
        select_row (table (snd once)) m t = Some r)
  /\ (unique_keys (table s) -> unique_keys (table (snd once))).
Proof.
  cbv zeta. rewrite !insert_db_spec. cbn [fst snd table].
  rewrite insert_all_idempotent.
  repeat split; try reflexivity.
  - intros m t r. apply insert_all_keeps.
  - apply insert_all_unique.
Qed.

(** C8 (malformed records are skipped), as the code has it.  [insert_db]
    completes on every batch; each record that does not have exactly six
    fields adds one warning to the log and nothing to the table, and the
    records after it are processed.  When the well-formed records of the
    batch have times that differ from one another and are not stored yet
    for the product, each of them adds one row; so a batch of five records
    of which exactly one is malformed then adds exactly four rows and
    exactly one warning. *)
Theorem insert_db_skips_malformed (product : string) (candles : Json) (s : State) :
  let out := insert_db product candles s in
  fst out = Ok tt
  /\ log (snd out)
     = log s ++ (DEBUG, MsgInserting (length candles)) :: warnings_of candles
  /\ length (warnings_of candles)
     = length (filter (fun c => negb (well_formed c)) candles)
  /\ table (snd out)
     = insert_all (rows_of product (filter well_formed candles)) (table s)
  /\ (NoDup (map time (rows_of product candles)) ->
      (forall r, In r (rows_of product candles) ->
         has_key (table s) product (time r) = false) ->
      table (snd out) = table s ++ rows_of product candles
      /\ row_count (table (snd out))
         = (row_count (table s) + length (filter well_formed candles))%nat
      /\ (length candles = 5%nat ->
          length (filter (fun c => negb (well_formed c)) candles) = 1%nat ->
          row_count (table (snd out)) = (row_count (table s) + 4)%nat
          /\ length (warnings_of candles) = 1%nat)).
Proof.
  cbv zeta. rewrite insert_db_spec. cbn [fst snd table log].
  assert (Hw : length (warnings_of candles)
               = length (filter (fun c => negb (well_formed c)) candles))
    by (unfold warnings_of; apply length_map).
  split; [reflexivity|]. split; [reflexivity|]. split; [exact Hw|].
  split; [now rewrite rows_of_filter|].
  intros Hnd Hfresh.
  assert (Htbl : insert_all (rows_of product candles) (table s)
                 = table s ++ rows_of product candles).
  { apply insert_all_fresh; [now apply rows_of_keys|].
    intros r Hin. rewrite (rows_of_market product candles r Hin).
    now apply Hfresh. }
  rewrite Htbl. unfold row_count. rewrite length_app, rows_of_length.
  split; [reflexivity|]. split; [reflexivity|].
  intros H5 H1. pose proof (filter_split_length well_formed candles). lia.
Qed.

(** C8 on [sample_batch] and an empty table: four rows, one warning. *)
Lemma insert_db_skips_malformed_witness :
  let out := insert_db "BTC-USD" sample_batch (initial_state 0 []) in
  row_count (table (snd out)) = 4%nat
  /\ length (warnings_of sample_batch) = 1%nat.
Proof.
  pose proof (insert_db_skips_malformed "BTC-USD" sample_batch (initial_state 0 []))
    as H.
  cbv zeta in H. destruct H as (_ & _ & _ & _ & H).
  assert (Hnd : NoDup (map time (rows_of "BTC-USD" sample_batch))).
  { vm_compute. repeat constructor; cbn; intuition discriminate. }
  assert (Hfresh : forall r, In r (rows_of "BTC-USD" sample_batch) ->
            has_key (table (initial_state 0 [])) "BTC-USD" (time r) = false)
    by reflexivity.
  destruct (H Hnd Hfresh) as (_ & _ & H5).
  exact (H5 eq_refl eq_refl).
Defined.

(** C8 as stated fails: of the five records of [sample_batch] exactly one
    has five fields and the other four have six, yet on a table that holds
    the minute the run resumes from, which is the minute of the last
    record, three rows are inserted. *)
Lemma insert_db_five_records_counterexample :
  ~ (forall (product : string) (candles : Json) (s : State),
       length candles = 5%nat ->
       length (filter (fun c => (length c =? 5)%nat) candles) = 1%nat ->
       length (filter well_formed candles) = 4%nat ->
       row_count (table (snd (insert_db product candles s)))
       = (row_count (table s) + 4)%nat).
Proof.
  intros H.
  specialize (H "BTC-USD" sample_batch
                (initial_state 0 [row_at "BTC-USD" 1516147200])
                eq_refl eq_refl eq_refl).
  vm_compute in H. discriminate H.
Qed.

(** C9 (columns).  A well-formed record [[time, low, high, open, close,
    volume]] of a batch whose key is neither stored for the product nor
    carried by an earlier record of the batch is stored, under the key
    [(product, str(time))], with [open], [high], [low], [close] and [volume]
    the texts of its own open, high, low, close and volume fields. *)
Theorem insert_db_columns (product : string) (before after : Json)
    (c_time c_low c_high c_open c_close c_volume : pyval) (s : State) :
  has_key (table s) product (py_str c_time) = false ->
  (forall r, In r (rows_of product before) -> time r <> py_str c_time) ->
  let candles :=
    before ++ [c_time; c_low; c_high; c_open; c_close; c_volume] :: after in
  select_row (table (snd (insert_db product candles s))) product (py_str c_time)
  = Some {| market := product; time := py_str c_time;
            open := py_str c_open; high := py_str c_high;
            low := py_str c_low; close := py_str c_close;
            volume := py_str c_volume |}.
Proof.
  intros Hfresh Hbefore candles. unfold candles.
  rewrite insert_db_spec. cbn [snd table].
  rewrite rows_of_app, rows_of_cons_wf, insert_all_app, insert_all_cons.
  apply insert_all_keeps.
  set (tbl := insert_all (rows_of product before) (table s)).
  assert (Hk : has_key tbl product (py_str c_time) = false).
  { unfold tbl. rewrite insert_all_has_key, Hfresh. cbn [orb].
    destruct (existsb _ _) eqn:He; [|reflexivity].
    apply existsb_exists in He. destruct He as (r & Hin & Hs).
    apply same_key_true in Hs. destruct Hs as [_ Ht].
    now destruct (Hbefore r Hin). }
  unfold insert_or_ignore. cbn [market time]. rewrite Hk.
  rewrite select_row_app_r by (now apply has_key_false_select).
  unfold select_row, same_key. cbn. now rewrite !String.eqb_refl.
Qed.

(** C9 on the last record of [sample_batch]. *)
Lemma insert_db_columns_witness :
  select_row (table (snd (insert_db "BTC-USD" sample_batch (initial_state 0 []))))
             "BTC-USD" "1516147200"
  = Some {| market := "BTC-USD"; time := "1516147200";
            open := "11300.0"; high := "11300.0"; low := "11268.99";
            close := "11269.0"; volume := "7.7" |}.
Proof.
  refine (insert_db_columns "BTC-USD" (firstn 4 sample_batch) []
            (PInt 1516147200) (PFloat "11268.99") (PFloat "11300.0")
            (PFloat "11300.0") (PFloat "11269.0") (PFloat "7.7")
            (initial_state 0 []) eq_refl _).
  intros r Hin. vm_compute in Hin.
  repeat (destruct Hin as [<-|Hin]; [vm_compute; discriminate|]). destruct Hin.
Defined.

(* ===================================================================== *)
(** ** Facts about [str] and [int] *)
(* ===================================================================== *)

Lemma pow10_succ k : 10 ^ Z.of_nat (S k) = 10 * 10 ^ Z.of_nat k.
Proof. rewrite Nat2Z.inj_succ. apply Z.pow_succ_r. lia. Qed.

Lemma pow10_pos k : 0 < 10 ^ Z.of_nat k.
Proof. apply Z.pow_pos_nonneg; lia. Qed.

(** The leading digit and the rest of a number below [10^(k+1)]. *)
Lemma leading_digit k n :
  0 <= n < 10 ^ Z.of_nat (S k) ->
  0 <= n / 10 ^ Z.of_nat k <= 9
  /\ 0 <= n mod 10 ^ Z.of_nat k < 10 ^ Z.of_nat k
  /\ n = 10 ^ Z.of_nat k * (n / 10 ^ Z.of_nat k) + n mod 10 ^ Z.of_nat k.
Proof.
  rewrite pow10_succ. pose proof (pow10_pos k) as Hp. intros [H0 H1].
  pose proof (Z.mod_pos_bound n _ Hp).
  pose proof (Z.div_mod n (10 ^ Z.of_nat k) ltac:(lia)).
  assert (0 <= n / 10 ^ Z.of_nat k) by (apply Z.div_pos; lia).
  assert (n / 10 ^ Z.of_nat k < 10) by (apply Z.div_lt_upper_bound; lia).
  lia.
Qed.

Lemma N_of_digit_char d :
  0 <= d <= 9 -> N_of_ascii (digit_char d) = Z.to_N (48 + d).
Proof.
  intros H. unfold digit_char, ascii_of_nat.
  rewrite N_ascii_embedding by lia. lia.
Qed.

Lemma digit_char_compare a b :
  0 <= a <= 9 -> 0 <= b <= 9 ->
  Ascii.compare (digit_char a) (digit_char b) = (a ?= b).
Proof.
  intros Ha Hb. unfold Ascii.compare. rewrite !N_of_digit_char by assumption.
  rewrite Z2N.inj_compare by lia. apply Z.add_compare_mono_l.
Qed.

Lemma digit_of_digit_char d :
  0 <= d <= 9 -> digit_of_ascii (digit_char d) = Some d.
Proof.
  intros H. unfold digit_of_ascii, nat_of_ascii.
  rewrite N_of_digit_char by assumption. rewrite Z_N_nat, Z2Nat.id by lia.
  replace (48 <=? 48 + d) with true by (symmetry; apply Z.leb_le; lia).
  replace (48 + d <=? 57) with true by (symmetry; apply Z.leb_le; lia).
  cbn [andb]. f_equal. lia.
Qed.

Lemma dec_length k n : String.length (dec k n) = k.
Proof. revert n. induction k as [|k IH]; intros n; cbn; [|rewrite IH]; reflexivity. Qed.

(** On texts of the same number of digits the order of TEXT is the order
    of the numbers. *)
Lemma dec_compare k a b :
  0 <= a < 10 ^ Z.of_nat k -> 0 <= b < 10 ^ Z.of_nat k ->
  String.compare (dec k a) (dec k b) = (a ?= b).
Proof.
  revert a b. induction k as [|k IH]; intros a b Ha Hb.
  - cbn in *. assert (a = 0) by lia. assert (b = 0) by lia. now subst.
  - destruct (leading_digit k a Ha) as (Hqa & Hra & Ea).
    destruct (leading_digit k b Hb) as (Hqb & Hrb & Eb).
    cbn [dec String.compare]. rewrite digit_char_compare by assumption.
    pose proof (pow10_pos k) as Hp.
    destruct (Z.compare_spec (a / 10 ^ Z.of_nat k) (b / 10 ^ Z.of_nat k))
      as [Heq|Hlt|Hgt].
    + rewrite IH by assumption.
      destruct (Z.compare_spec (a mod 10 ^ Z.of_nat k) (b mod 10 ^ Z.of_nat k));
        symmetry; [apply Z.compare_eq_iff|apply Z.compare_lt_iff
                  |apply Z.compare_gt_iff]; nia.
    + symmetry. apply Z.compare_lt_iff. nia.
    + symmetry. apply Z.compare_gt_iff. nia.
Qed.

Lemma parse_digits_dec k n acc :
  0 <= n < 10 ^ Z.of_nat k ->
  parse_digits acc (dec k n) = Some (acc * 10 ^ Z.of_nat k + n).
Proof.
  revert n acc. induction k as [|k IH]; intros n acc Hn.
  - cbn in *. f_equal. lia.
  - destruct (leading_digit k n Hn) as (Hq & Hr & En).
    cbn [dec parse_digits]. rewrite digit_of_digit_char by assumption.
    rewrite IH by assumption. f_equal. rewrite pow10_succ. nia.
Qed.

Lemma ndigits_aux_bound fuel n :
  0 <= n < 10 * 2 ^ Z.of_nat fuel ->
  n < 10 ^ Z.of_nat (ndigits_aux fuel n).
Proof.
  revert n. induction fuel as [|fuel IH]; intros n Hn.
  - cbn in *. lia.
  - cbn [ndigits_aux]. destruct (Z.ltb_spec n 10) as [Hlt|Hge]; [cbn; lia|].
    rewrite pow10_succ.
    assert (Hdiv : 0 <= n / 10 < 10 * 2 ^ Z.of_nat fuel).
    { split; [apply Z.div_pos; lia|].
      apply Z.div_lt_upper_bound; [lia|].
      rewrite Nat2Z.inj_succ, Z.pow_succ_r in Hn by lia.
      pose proof (Z.pow_pos_nonneg 2 (Z.of_nat fuel) ltac:(lia) ltac:(lia)). lia. }
    specialize (IH _ Hdiv).
    pose proof (Z.mul_succ_div_gt n 10 ltac:(lia)). lia.
Qed.

Lemma ndigits_bound n : 0 <= n -> n < 10 ^ Z.of_nat (ndigits n).
Proof.
  intros Hn. apply ndigits_aux_bound. split; [exact Hn|].
  rewrite Z2Nat.id by apply Z.log2_nonneg.
  destruct (Z.eq_dec n 0) as [->|Hne]; [cbn; lia|].
  pose proof (Z.log2_spec n ltac:(lia)) as [_ Hup].
  rewrite Z.pow_succ_r in Hup by apply Z.log2_nonneg. lia.
Qed.

Lemma ndigits_aux_pos fuel n : (1 <= ndigits_aux fuel n)%nat.
Proof. destruct fuel; cbn; [lia|]. destruct (n <? 10); lia. Qed.

(** The text of a number that is not negative begins with a digit. *)
Lemma str_int_nonneg_shape n :
  0 <= n ->
  exists d rest, 0 <= d <= 9 /\ str_int n = String (digit_char d) rest.
Proof.
  intros Hn. unfold str_int.
  replace (n <? 0) with false by (symmetry; apply Z.ltb_ge; lia).
  pose proof (ndigits_bound n Hn) as Hb. unfold ndigits in *.
  pose proof (ndigits_aux_pos (Z.to_nat (Z.log2 n)) n) as Hpos.
  destruct (ndigits_aux (Z.to_nat (Z.log2 n)) n) as [|k]; [lia|].
  destruct (leading_digit k n (conj Hn Hb)) as (Hq & _ & _).
  cbn [dec]. eauto.
Qed.

Lemma py_int_digit_first d rest :
  0 <= d <= 9 ->
  py_int (String (digit_char d) rest) = parse_digits 0 (String (digit_char d) rest).
Proof.
  intros H.
  assert (Hd : d = 0 \/ d = 1 \/ d = 2 \/ d = 3 \/ d = 4 \/ d = 5 \/ d = 6
               \/ d = 7 \/ d = 8 \/ d = 9) by lia.
  repeat (destruct Hd as [-> | Hd]; [reflexivity|]). now subst.
Qed.

(** [int(str(n)) == n] *)
Lemma py_int_str_int n : py_int (str_int n) = Some n.
Proof.
  destruct (Z_lt_le_dec n 0) as [Hneg|Hpos].
  - unfold str_int. replace (n <? 0) with true by (symmetry; apply Z.ltb_lt; lia).
    cbn [py_int]. pose proof (ndigits_bound (- n) ltac:(lia)) as Hb.
    pose proof (ndigits_aux_pos (Z.to_nat (Z.log2 (- n))) (- n)) as Hp.
    fold (ndigits (- n)) in Hp.
    unfold parse_number.
    destruct (dec (ndigits (- n)) (- n)) eqn:Hdec.
    + apply (f_equal String.length) in Hdec. rewrite dec_length in Hdec.
      cbn in Hdec. lia.
    + rewrite <- Hdec, parse_digits_dec by lia. cbn. f_equal. lia.
  - destruct (str_int_nonneg_shape n Hpos) as (d & rest & Hd & E).
    rewrite E, py_int_digit_first by assumption. rewrite <- E.
    unfold str_int. replace (n <? 0) with false by (symmetry; apply Z.ltb_ge; lia).
    rewrite parse_digits_dec by (split; [lia|now apply ndigits_bound]).
    f_equal.
Qed.

Lemma str_int_compare a b :
  0 <= a -> 0 <= b -> ndigits a = ndigits b ->
  String.compare (str_int a) (str_int b) = (a ?= b).
Proof.
  intros Ha Hb E. unfold str_int.
  replace (a <? 0) with false by (symmetry; apply Z.ltb_ge; lia).
  replace (b <? 0) with false by (symmetry; apply Z.ltb_ge; lia).
  rewrite E. apply dec_compare; split; try lia.
  - rewrite <- E. now apply ndigits_bound.
  - now apply ndigits_bound.
Qed.

Lemma text_max_str_int a b :
  0 <= a -> 0 <= b -> ndigits a = ndigits b ->
  text_max (str_int a) (str_int b) = str_int (Z.max a b).
Proof.
  intros Ha Hb E. unfold text_max, String.ltb.
  rewrite str_int_compare by assumption.
  destruct (Z.compare_spec a b) as [->|Hlt|Hgt].
  - now rewrite Z.max_id.
  - now rewrite Z.max_r by lia.
  - now rewrite Z.max_l by lia.
Qed.

Lemma fold_text_max_str_int ts t :
  0 <= t -> (forall x, In x ts -> 0 <= x /\ ndigits x = ndigits t) ->
  fold_left text_max (map str_int ts) (str_int t)
  = str_int (fold_left Z.max ts t).
Proof.
  revert t. induction ts as [|x ts IH]; intros t Ht Hall; [reflexivity|].
  destruct (Hall x (or_introl eq_refl)) as [Hx Ex].
  cbn [map fold_left]. rewrite text_max_str_int by auto.
  assert (Hm : Z.max t x = t \/ Z.max t x = x) by lia.
  apply IH; [lia|].
  intros y Hy. destruct (Hall y (or_intror Hy)) as [Hy0 Ey].
  split; [exact Hy0|]. destruct Hm as [-> | ->]; congruence.
Qed.

(* ===================================================================== *)
(** ** Facts about [get_start_date] *)
(* ===================================================================== *)

Lemma select_max_time_acc tbl product m :
  fold_left
    (fun acc r =>
       if String.eqb (market r) product
       then Some (match acc with
                  | None => time r
                  | Some m => text_max m (time r)
                  end)
       else acc)
    tbl (Some m)
  = Some (fold_left text_max (times_of tbl product) m).
Proof.
  revert m. induction tbl as [|r tbl IH]; intros m; [reflexivity|].
  cbn [fold_left]. unfold times_of. cbn [filter].
  destruct (String.eqb (market r) product); [|apply IH].
  rewrite IH. reflexivity.
Qed.

(** [max(time)] is NULL when the product has no row and else the greatest
    of its time texts in the order of TEXT. *)
Lemma select_max_time_spec tbl product :
  select_max_time tbl product
  = match times_of tbl product with
    | [] => None
    | t :: ts => Some (fold_left text_max ts t)
    end.
Proof.
  unfold select_max_time. induction tbl as [|r tbl IH]; [reflexivity|].
  cbn [fold_left]. unfold times_of. cbn [filter].
  destruct (String.eqb (market r) product); [|exact IH].
  apply select_max_time_acc.
Qed.

Lemma get_start_date_stored product s t ts n :
  times_of (table s) product = t :: ts ->
  py_int (fold_left text_max ts t) = Some n ->
  fst (get_start_date product s) = utcfromtimestamp n
  /\ table (snd (get_start_date product s)) = table s.
Proof.
  intros Ht Hn. unfold get_start_date, bind, get_table.
  rewrite select_max_time_spec, Ht, Hn. unfold lift.
  destruct (utcfromtimestamp n); split; reflexivity.
Qed.

Lemma get_start_date_empty product s day :
  times_of (table s) product = [] ->
  dict_get PRODUCTS product = Ok day ->
  fst (get_start_date product s) = strptime_ymd day
  /\ table (snd (get_start_date product s)) = table s.
Proof.
  intros Ht Hday. unfold get_start_date, bind, get_table.
  rewrite select_max_time_spec, Ht. unfold lift. rewrite Hday.
  destruct (strptime_ymd day); split; reflexivity.
Qed.

(** What [main] starts a product from.  An explicit [--start-date] is the
    start date whatever the store and the registry hold.  Without one: when
    the product has no stored row, the start date is the registry's date for
    it; when it has rows, the start date is the greatest of their [time]
    texts in the order of TEXT, read as an integer and as a UTC datetime,
    which is the greatest stored timestamp when the stored times are
    integers that are not negative and have the same number of digits.  The
    table is not changed. *)
Theorem resolve_start_date_precedence (args : Args) (product : string) (s : State) :
  (forall txt, arg_start_date args = Some txt ->
     resolve_start_date args product s = (strptime_ymd txt, s))
  /\ (arg_start_date args = None ->
      table (snd (resolve_start_date args product s)) = table s
      /\ (forall day, times_of (table s) product = [] ->
            dict_get PRODUCTS product = Ok day ->
            fst (resolve_start_date args product s) = strptime_ymd day)
      /\ (forall t ts n, times_of (table s) product = t :: ts ->
            py_int (fold_left text_max ts t) = Some n ->
            fst (resolve_start_date args product s) = utcfromtimestamp n)
      /\ (forall t ts, times_of (table s) product = map str_int (t :: ts) ->
            0 <= t ->
            (forall x, In x ts -> 0 <= x /\ ndigits x = ndigits t) ->
            fst (resolve_start_date args product s)
            = utcfromtimestamp (fold_left Z.max ts t))).
Proof.
  unfold resolve_start_date. split.
  - intros txt ->. reflexivity.
  - intros ->. split; [|split; [|split]].
    + unfold get_start_date, bind, get_table, lift.
      destruct (select_max_time (table s) product) as [txt|].
      * destruct (py_int txt) as [n|]; [|reflexivity].
        destruct (utcfromtimestamp n); reflexivity.
      * destruct (dict_get PRODUCTS product) as [day|]; [|reflexivity].
        destruct (strptime_ymd day); reflexivity.
    + intros day Ht Hday. now apply get_start_date_empty.
    + intros t ts n Ht Hn. now apply (get_start_date_stored product s t ts n).
    + intros t ts Ht H0 Hall. cbn [map] in Ht.
      apply (get_start_date_stored product s _ _ _ Ht).
      rewrite fold_text_max_str_int by assumption. apply py_int_str_int.
Qed.

(** On a store that holds two minutes of BTC-USD and nothing of ETH-USD. *)
Lemma resolve_start_date_precedence_witness :
  let s := initial_state 0 [row_at "BTC-USD" 1516147200; row_at "BTC-USD" 1516147260] in
  fst (resolve_start_date (mkArgs (Some "2018-01-01") None) "BTC-USD" s)
  = Ok 1514764800000000
  /\ fst (resolve_start_date no_override "ETH-USD" s) = Ok 1463529600000000
  /\ fst (resolve_start_date no_override "BTC-USD" s) = Ok 1516147260000000.
Proof.
  intros s.
  split; [|split].
  - exact (f_equal fst
             (proj1 (resolve_start_date_precedence
                       (mkArgs (Some "2018-01-01") None) "BTC-USD" s)
                    "2018-01-01" eq_refl)).
  - destruct (proj2 (resolve_start_date_precedence no_override "ETH-USD" s) eq_refl)
      as (_ & Hreg & _).
    exact (Hreg "2016-05-18" eq_refl eq_refl).
  - destruct (proj2 (resolve_start_date_precedence no_override "BTC-USD" s) eq_refl)
      as (_ & _ & _ & Hmax).
    refine (Hmax 1516147200 [1516147260] eq_refl ltac:(lia) _).
    intros x [<-|[]]. split; [lia|reflexivity].
Defined.

(** The start date is not always the greatest stored timestamp: with the
    rows of the seconds 999999999 and 1000000000 stored for a product, it
    is the second 999999999, the greater of the two texts, and not the
    second 1000000000, the greater of the two timestamps. *)
Lemma resolve_start_date_counterexample :
  ~ (forall (product : string) (s : State) (t : Z) (ts : list Z),
       times_of (table s) product = map str_int (t :: ts) ->
       fst (resolve_start_date no_override product s)
       = utcfromtimestamp (fold_left Z.max ts t)).
Proof.
  intros H.
  specialize (H "BTC-USD"
                (initial_state 0 [row_at "BTC-USD" 999999999;
                                  row_at "BTC-USD" 1000000000])
                999999999 [1000000000] eq_refl).
  vm_compute in H. discriminate H.
Qed.

(** C3, on the code.  With the rows of the seconds 999999999 (2001-09-09
    01:46:39) and 1000000000 (2001-09-09 01:46:40) stored for BTC-USD and no
    [--start-date], [max(time)] over the TEXT column is ['999999999'], and
    the start date [main] computes is 2001-09-09 01:46:39, the older of the
    two rows, not the latest record, which is one second later. *)
Lemma get_start_date_resumes_from_older_row :
  let s := initial_state 0 [row_at "BTC-USD" 999999999;
                            row_at "BTC-USD" 1000000000] in
  times_of (table s) "BTC-USD" = map str_int [999999999; 1000000000]
  /\ select_max_time (table s) "BTC-USD" = Some "999999999"
  /\ fst (resolve_start_date no_override "BTC-USD" s)
     = Ok (999999999 * usec_per_second)
  /\ utcfromtimestamp (Z.max 999999999 1000000000)
     = Ok (1000000000 * usec_per_second)
  /\ 999999999 * usec_per_second < 1000000000 * usec_per_second.
Proof.
  vm_compute. repeat split; reflexivity.
Qed.

(* ===================================================================== *)
(** ** Facts about [get], continued: every run of the loop *)
(* ===================================================================== *)

Section GetRuns.

Variable upstream : Upstream.

(** The four ways one attempt can go. *)
Lemma get_for_cases rq i indices r0 s :
  let s1 := mkState (clock s) (sent s ++ [rq]) (slept s) (log s) (table s) in
  (exists r, ~ (400 <= status_code r < 600)
             /\ get_for upstream rq (i :: indices) r0 s = (Ok (Some r), s1))
  \/ (exists r, get_for upstream rq (i :: indices) r0 s
                = (Raise (HTTPError (status_code r)), s1))
  \/ (exists r, get_for upstream rq (i :: indices) r0 s
                = get_for upstream rq indices (Some r)
                    (mkState (clock s + seconds_1) (sent s ++ [rq])
                       (slept s ++ [seconds_1])
                       ((log s ++ [(WARNING, MsgHTTPError (status_code r))])
                          ++ [(INFO, MsgRetrying)])
                       (table s)))
  \/ get_for upstream rq (i :: indices) r0 s = (Raise ConnectionError, s1).
Proof.
  intros s1.
  destruct (upstream (length (sent s)) rq) as [r|] eqn:Hup.
  - destruct (Z_lt_le_dec (status_code r) 400) as [Hlo|Hlo].
    { left. exists r. split; [lia|]. apply get_for_break; [assumption|lia]. }
    destruct (Z_lt_le_dec (status_code r) 600) as [Hhi|Hhi].
    2:{ left. exists r. split; [lia|]. apply get_for_break; [assumption|lia]. }
    destruct (Nat.lt_ge_cases i (tries - 1)) as [Hi|Hi].
    2:{ right. left. exists r. apply get_for_raise; [assumption|lia|now right]. }
    destruct (Z.eq_dec (status_code r) 429) as [H429|H429].
    { right. right. left. exists r. apply get_for_retry; auto. }
    destruct (Z.eq_dec (status_code r) 500) as [H500|H500].
    { right. right. left. exists r. apply get_for_retry; auto. }
    right. left. exists r. apply get_for_raise; [assumption|lia|now left].
  - right. right. right. now apply get_for_no_answer.
Qed.

(** [get_for] leaves the table alone and makes its requests, all of them
    the same, one after the other. *)
Lemma get_for_frame rq indices r0 s :
  table (snd (get_for upstream rq indices r0 s)) = table s
  /\ exists k, (k <= length indices)%nat
       /\ sent (snd (get_for upstream rq indices r0 s)) = sent s ++ repeat rq k.
Proof.
  revert r0 s. induction indices as [|i indices IH]; intros r0 s.
  - cbn. split; [reflexivity|]. exists O. cbn. now rewrite app_nil_r.
  - destruct (get_for_cases rq i indices r0 s)
      as [(r & _ & E) | [(r & E) | [(r & E) | E]]]; rewrite E.
    + cbn. split; [reflexivity|]. exists 1%nat. split; [lia|reflexivity].
    + cbn. split; [reflexivity|]. exists 1%nat. split; [lia|reflexivity].
    + destruct (IH (Some r)
                  (mkState (clock s + seconds_1) (sent s ++ [rq])
                     (slept s ++ [seconds_1])
                     ((log s ++ [(WARNING, MsgHTTPError (status_code r))])
                        ++ [(INFO, MsgRetrying)])
                     (table s))) as (Ht & k & Hk & Hs).
      split; [exact Ht|]. exists (S k). split; [cbn; lia|].
      rewrite Hs. cbn [sent repeat]. now rewrite <- app_assoc.
    + cbn. split; [reflexivity|]. exists 1%nat. split; [lia|reflexivity].
Qed.

Lemma get_frame rq s :
  table (snd (get upstream rq s)) = table s
  /\ exists k, (k <= tries)%nat
       /\ sent (snd (get upstream rq s)) = sent s ++ repeat rq k.
Proof.
  unfold get, bind.
  pose proof (get_for_frame rq (seq 0 tries) None s) as H.
  rewrite length_seq in H.
  destruct (get_for upstream rq (seq 0 tries) None s) as [[[r|]|e] s1];
    cbn [snd] in *; try exact H.
  unfold json. destruct (body r); exact H.
Qed.

(** With answers only, [get] returns a body or raises an HTTP error. *)
Lemma get_http_only rq s :
  http_only upstream ->
  (exists j, fst (get upstream rq s) = Ok j)
  \/ (exists c, fst (get upstream rq s) = Raise (HTTPError c)).
Proof.
  intros Hup.
  assert (Hone : forall i indices r0 s0,
            (exists r j, body r = Some j
               /\ get_for upstream rq (i :: indices) r0 s0
                  = (Ok (Some r), mkState (clock s0) (sent s0 ++ [rq])
                                          (slept s0) (log s0) (table s0)))
            \/ (exists c s1, get_for upstream rq (i :: indices) r0 s0
                             = (Raise (HTTPError c), s1))
            \/ ((i < tries - 1)%nat
                /\ exists r s1, get_for upstream rq (i :: indices) r0 s0
                                = get_for upstream rq indices (Some r) s1)).
  { intros i indices r0 s0.
    destruct (Hup (length (sent s0)) rq) as (r & Hr & Hbody).
    destruct (Z_lt_le_dec (status_code r) 400) as [Hlo|Hlo].
    { left. destruct Hbody as [?|[j Hj]]; [lia|]. exists r, j. split; [exact Hj|].
      apply get_for_break; [assumption|lia]. }
    destruct (Z_lt_le_dec (status_code r) 600) as [Hhi|Hhi].
    2:{ left. destruct Hbody as [?|[j Hj]]; [lia|]. exists r, j.
        split; [exact Hj|]. apply get_for_break; [assumption|lia]. }
    destruct (Nat.lt_ge_cases i (tries - 1)) as [Hi|Hi].
    2:{ right. left. eexists _, _. apply get_for_raise; [eassumption|lia|now right]. }
    destruct (Z.eq_dec (status_code r) 429) as [H429|H429].
    { right. right. split; [exact Hi|]. eexists _, _. apply get_for_retry; eauto. }
    destruct (Z.eq_dec (status_code r) 500) as [H500|H500].
    { right. right. split; [exact Hi|]. eexists _, _. apply get_for_retry; eauto. }
    right. left. eexists _, _. apply get_for_raise; [eassumption|lia|now left]. }
  unfold get, bind. cbn [seq tries].
  destruct (Hone 0%nat [1; 2]%nat None s)
    as [(r & j & Hj & E) | [(c & s1 & E) | (_ & r & s1 & E)]];
    rewrite E; clear E.
  { left. exists j. unfold json. now rewrite Hj. }
  { right. now exists c. }
  destruct (Hone 1%nat [2]%nat (Some r) s1)
    as [(r' & j & Hj & E) | [(c & s2 & E) | (_ & r' & s2 & E)]];
    rewrite E; clear E.
  { left. exists j. unfold json. now rewrite Hj. }
  { right. now exists c. }
  destruct (Hone 2%nat []%nat (Some r') s2)
    as [(r'' & j & Hj & E) | [(c & s3 & E) | (Hi & _)]];
    [rewrite E; clear E | rewrite E; clear E | unfold tries in Hi; lia].
  { left. exists j. unfold json. now rewrite Hj. }
  { right. now exists c. }
Qed.

End GetRuns.

(* ===================================================================== *)
(** ** Facts about [get_candles] *)
(* ===================================================================== *)

Lemma keeps_rows_refl s : keeps_rows s s.
Proof. intros m t r H. exact H. Qed.

Lemma keeps_rows_trans s1 s2 s3 :
  keeps_rows s1 s2 -> keeps_rows s2 s3 -> keeps_rows s1 s3.
Proof. intros H12 H23 m t r H. apply H23, H12, H. Qed.

Lemma keeps_rows_same_table s s' : table s' = table s -> keeps_rows s s'.
Proof. intros E m t r H. now rewrite E. Qed.

(** What the body of the loop of [main] does with a batch. *)
Lemma persist_spec i n product candles s :
  persist i n product candles s
  = (Ok tt,
     mkState (clock s + seconds_0_5) (sent s) (slept s ++ [seconds_0_5])
       ((log s ++ [(DEBUG, MsgFetched i n product (length candles))])
          ++ (DEBUG, MsgInserting (length candles)) :: warnings_of candles)
       (insert_all (rows_of product candles) (table s))).
Proof.
  unfold persist, bind, logger, with_con. rewrite insert_db_spec. reflexivity.
Qed.

Section GetCandles.

Variable upstream : Upstream.

(** One turn of the loop of [get_candles], by what [get] does. *)
Lemma get_candles_for_cons yield_ product sd ed w ws prev s :
  get_candles_for upstream yield_ product sd ed (w :: ws) prev s
  = match get upstream (candles_request product w)
            (before_fetch product w sd ed prev s) with
    | (Ok data, s1) =>
        match yield_ data s1 with
        | (Ok _, s2) =>
            get_candles_for upstream yield_ product sd ed ws (date (fst w)) s2
        | (Raise e, s2) => (Raise e, s2)
        end
    | (Raise (HTTPError status), s1) => (Ok tt, after_abandon status s1)
    | (Raise e, s1) => (Raise e, s1)
    end.
Proof.
  destruct w as [start end_].
  cbn [get_candles_for fst]. unfold before_fetch, after_abandon.
  unfold bind, try_except, logger, ret. cbn [fst snd].
  destruct (negb (date start =? prev)); cbv beta; cbn [fst snd];
    (destruct (get upstream (candles_request product (start, end_)) _)
       as [[data|e] s1]; [reflexivity|destruct e; reflexivity]).
Qed.

Lemma before_fetch_frame product w sd ed prev s :
  table (before_fetch product w sd ed prev s) = table s
  /\ sent (before_fetch product w sd ed prev s) = sent s.
Proof.
  unfold before_fetch, bind, logger.
  destruct (negb (date (fst w) =? prev)); split; reflexivity.
Qed.

Lemma in_repeat {A} (x y : A) k : In y (repeat x k) -> y = x.
Proof. induction k as [|k IH]; cbn; [intros []|intros [<-|H]; auto]. Qed.

(** The loop with the body of [main]: no HTTP error leaves it, the rows
    stored before it are kept, the requests it makes are for its windows,
    and when HTTP errors are all that can go wrong it returns. *)
Lemma get_candles_for_persist i n product sd ed ws prev s :
  let out := get_candles_for upstream (persist i n product) product sd ed ws prev s in
  (forall c, fst out <> Raise (HTTPError c))
  /\ keeps_rows s (snd out)
  /\ (exists l, sent (snd out) = sent s ++ l
                /\ incl l (map (candles_request product) ws))
  /\ (http_only upstream -> fst out = Ok tt).
Proof.
  revert prev s. induction ws as [|w ws IH]; intros prev s out.
  - unfold out. cbn. split; [discriminate|]. split; [apply keeps_rows_refl|].
    split; [|reflexivity]. exists []. split; [now rewrite app_nil_r|easy].
  - unfold out. rewrite get_candles_for_cons.
    set (rq := candles_request product w).
    set (s0 := before_fetch product w sd ed prev s).
    destruct (before_fetch_frame product w sd ed prev s) as [Ht0 Hsent0].
    fold s0 in Ht0, Hsent0.
    destruct (get_frame upstream rq s0) as (Ht1 & k & Hk & Hsent1).
    pose proof (get_http_only upstream rq s0) as Hhttp.
    assert (Hrq : incl (repeat rq k) (map (candles_request product) (w :: ws))).
    { intros x Hx. apply in_repeat in Hx. subst x. now left. }
    destruct (get upstream rq s0) as [[data|e] s1]; cbn [fst snd] in *.
    + rewrite persist_spec.
      set (s2 := mkState _ _ _ _ _).
      specialize (IH (date (fst w)) s2). cbv zeta in IH.
      destruct IH as (Hno & Hkeep & (l & Hl & Hincl) & Hok).
      split; [exact Hno|]. split.
      { eapply keeps_rows_trans; [|exact Hkeep].
        intros m t r H. unfold s2. cbn [table]. apply insert_all_keeps.
        now rewrite Ht1, Ht0. }
      split; [|exact Hok].
      exists (repeat rq k ++ l). split.
      { rewrite Hl. unfold s2. cbn [sent]. rewrite Hsent1, Hsent0.
        now rewrite app_assoc. }
      apply incl_app; [exact Hrq|]. now apply incl_tl.
    + assert (Hab : forall c, table (after_abandon c s1) = table s
                              /\ sent (after_abandon c s1)
                                 = sent s ++ repeat rq k).
      { intros c. unfold after_abandon, bind, logger. cbn.
        now rewrite Ht1, Ht0, Hsent1, Hsent0. }
      destruct e as [status| | | |key| |];
        try (split; [discriminate|];
             split; [apply keeps_rows_same_table; cbn; congruence|];
             split; [exists (repeat rq k); split;
                       [cbn; congruence | exact Hrq]|];
             intros Hup; destruct (Hhttp Hup) as [[j Hj]|[c Hc]]; discriminate).
      destruct (Hab status) as [Ht Hs].
      cbn [fst snd]. split; [discriminate|].
      split; [now apply keeps_rows_same_table|].
      split; [|reflexivity]. exists (repeat rq k). split; assumption.
Qed.

(** The windows [get_candles] goes through for a start and an end date. *)
Lemma get_candles_unfold yield_ product sd ed s :
  get_candles upstream yield_ product sd ed s
  = if ed - minutes 300 <? sd
    then logger DEBUG (MsgStartAfterEnd sd (ed - minutes 300)) s
    else get_candles_for upstream yield_ product sd (ed - minutes 300)
           (daterange sd (ed - minutes 300) (minutes 300)) (date sd) s.
Proof. unfold get_candles. now destruct (ed - minutes 300 <? sd). Qed.

Lemma minutes_300_pos : 0 < minutes 300.
Proof. reflexivity. Qed.

(** Every window of [get_candles] starts before the end date less 300
    minutes, and ends before the end date. *)
Lemma get_candles_windows_bound sd ed w :
  In w (daterange sd (ed - minutes 300) (minutes 300)) ->
  sd <= fst w < ed - minutes 300 /\ snd w = fst w + minutes 300 /\ snd w < ed.
Proof.
  intros Hin.
  destruct (daterange_In_start _ _ minutes_300_pos _ _ Hin) as (H1 & H2 & H3).
  lia.
Qed.

Lemma get_candles_persist i n product sd ed s :
  let out := get_candles upstream (persist i n product) product sd ed s in
  (forall c, fst out <> Raise (HTTPError c))
  /\ keeps_rows s (snd out)
  /\ (exists l, sent (snd out) = sent s ++ l
        /\ forall rq, In rq l ->
             exists w, rq = candles_request product w
               /\ sd <= fst w < ed - minutes 300
               /\ snd w = fst w + minutes 300 /\ snd w < ed)
  /\ (http_only upstream -> fst out = Ok tt).
Proof.
  cbv zeta. rewrite get_candles_unfold.
  destruct (ed - minutes 300 <? sd).
  - cbn. split; [discriminate|]. split; [now apply keeps_rows_same_table|].
    split; [|reflexivity]. exists []. split; [now rewrite app_nil_r|intros ? []].
  - destruct (get_candles_for_persist i n product sd (ed - minutes 300)
                (daterange sd (ed - minutes 300) (minutes 300)) (date sd) s)
      as (Hno & Hkeep & (l & Hl & Hincl) & Hok).
    split; [exact Hno|]. split; [exact Hkeep|]. split; [|exact Hok].
    exists l. split; [exact Hl|]. intros rq Hin.
    apply Hincl, in_map_iff in Hin. destruct Hin as (w & <- & Hw).
    exists w. split; [reflexivity|]. now apply get_candles_windows_bound.
Qed.

(** With every request answered 200, [get] makes one request and returns
    its body. *)
Lemma get_always_ok rq s :
  always_ok upstream ->
  exists j, get upstream rq s
            = (Ok j, mkState (clock s) (sent s ++ [rq]) (slept s) (log s) (table s)).
Proof.
  intros Hup. destruct (Hup (length (sent s)) rq) as [j Hj]. exists j.
  unfold get, bind. cbn [seq tries].
  rewrite (get_for_break upstream rq 0 [1; 2]%nat None s _ Hj) by (cbn; lia).
  reflexivity.
Qed.

(** With every request answered 200, the loop makes one request for each
    of its windows, in order, and returns. *)
Lemma get_candles_for_always_ok i n product sd ed ws prev s :
  always_ok upstream ->
  let out := get_candles_for upstream (persist i n product) product sd ed ws prev s in
  fst out = Ok tt
  /\ sent (snd out) = sent s ++ map (candles_request product) ws.
Proof.
  intros Hup. revert prev s. induction ws as [|w ws IH]; intros prev s.
  - cbn. now rewrite app_nil_r.
  - cbv zeta. rewrite get_candles_for_cons.
    destruct (before_fetch_frame product w sd ed prev s) as [_ Hsent0].
    destruct (get_always_ok (candles_request product w)
                (before_fetch product w sd ed prev s) Hup) as [j ->].
    rewrite persist_spec.
    set (s2 := mkState _ _ _ _ _).
    destruct (IH (date (fst w)) s2) as [Hok Hsent]. split; [exact Hok|].
    rewrite Hsent. unfold s2. cbn [sent map]. rewrite Hsent0.
    now rewrite <- app_assoc.
Qed.

End GetCandles.

Lemma requests_since_app s s' l :
  sent s' = sent s ++ l -> requests_since s s' = l.
Proof.
  intros H. unfold requests_since. rewrite H, skipn_app, skipn_all, Nat.sub_diag.
  reflexivity.
Qed.

(* ===================================================================== *)
(** ** Facts about the driver *)
(* ===================================================================== *)

Lemma strptime_ymd_cases txt :
  (exists d, strptime_ymd txt = Ok d) \/ strptime_ymd txt = Raise ValueError.
Proof.
  unfold strptime_ymd.
  repeat match goal with
         | |- context [match ?x with _ => _ end] => destruct x
         end; eauto.
Qed.

Lemma dict_get_cases d k :
  (exists v, dict_get d k = Ok v) \/ dict_get d k = Raise (KeyError k).
Proof.
  induction d as [|[k' v] d IH]; cbn; [now right|].
  destruct (String.eqb k' k); eauto.
Qed.

Lemma resolve_start_date_frame args product s :
  table (snd (resolve_start_date args product s)) = table s
  /\ sent (snd (resolve_start_date args product s)) = sent s
  /\ forall c, fst (resolve_start_date args product s) <> Raise (HTTPError c).
Proof.
  unfold resolve_start_date.
  destruct (arg_start_date args) as [txt|].
  - unfold lift. cbn [fst snd]. repeat split.
    intros c. destruct (strptime_ymd_cases txt) as [[d ->] | ->]; discriminate.
  - unfold get_start_date, bind, get_table, lift.
    destruct (select_max_time (table s) product) as [txt|].
    + destruct (py_int txt) as [k|]; [|repeat split; discriminate].
      unfold utcfromtimestamp.
      destruct (_ && _); repeat split; discriminate.
    + destruct (dict_get_cases PRODUCTS product) as [[day ->] | ->];
        [|repeat split; discriminate].
      destruct (strptime_ymd_cases day) as [[d ->] | ->];
        repeat split; discriminate.
Qed.

Section Driver.

Variable upstream : Upstream.

Lemma import_product_persist md args n i product s :
  let out := import_product upstream md args n i product s in
  (forall c, fst out <> Raise (HTTPError c))
  /\ keeps_rows s (snd out)
  /\ (http_only upstream ->
      (exists sd, fst (resolve_start_date args product s) = Ok sd) ->
      fst out = Ok tt).
Proof.
  cbv zeta. unfold import_product, bind.
  destruct (resolve_start_date_frame args product s) as (Ht & _ & Hno).
  destruct (resolve_start_date args product s) as [[sd|e] s1]; cbn [fst snd] in *.
  - unfold logger at 1.
    set (s2 := mkState _ _ _ _ _).
    destruct (get_candles_persist upstream i n product sd
                (get_candles_end_date_default md) s2)
      as (Hno' & Hkeep & _ & Hok).
    split; [exact Hno'|]. split; [|intros Hup _; now apply Hok].
    eapply keeps_rows_trans; [|exact Hkeep].
    apply keeps_rows_same_table. exact Ht.
  - split; [intros c [= ->]; now apply (Hno c)|].
    split; [now apply keeps_rows_same_table|].
    intros _ [sd Hsd]. discriminate Hsd.
Qed.

End Driver.

(** C7 (a terminal fetch failure abandons the product, not the run).
    When [get] raises an HTTP error for a window, the loop of [get_candles]
    returns there and then, without an exception: the windows left are not
    requested and nothing more is yielded, and the table is as it was at
    the top of that turn.  So no HTTP error ever leaves the import of a
    product; every row stored before the import, those of its earlier
    batches among them, is still stored after it; when HTTP errors are all
    the upstream fails with and the start date resolves, the import of the
    product returns; and when it returns the driver goes on with the next
    product. *)
Theorem terminal_failure_abandons_product (upstream : Upstream) (md : Module)
    (args : Args) (n i : nat) (product : string) (products : list string)
    (s : State) :
  (forall yield_ sd ed w ws prev s0 c s1,
     get upstream (candles_request product w)
         (before_fetch product w sd ed prev s0) = (Raise (HTTPError c), s1) ->
     get_candles_for upstream yield_ product sd ed (w :: ws) prev s0
     = (Ok tt, after_abandon c s1)
     /\ sent (after_abandon c s1) = sent s1
     /\ table (after_abandon c s1) = table s0)
  /\ (let out := import_product upstream md args n i product s in
      (forall c, fst out <> Raise (HTTPError c))
      /\ keeps_rows s (snd out)
      /\ (http_only upstream ->
          (exists sd, fst (resolve_start_date args product s) = Ok sd) ->
          fst out = Ok tt)
      /\ (fst out = Ok tt ->
          import_products upstream md args n i (product :: products) s
          = import_products upstream md args n (S i) products (snd out))).
Proof.
  split.
  - intros yield_ sd ed w ws prev s0 c s1 Hget.
    rewrite get_candles_for_cons, Hget. split; [reflexivity|].
    split; [reflexivity|].
    destruct (get_frame upstream (candles_request product w)
                (before_fetch product w sd ed prev s0)) as (Ht & _).
    rewrite Hget in Ht. cbn [snd] in Ht.
    destruct (before_fetch_frame product w sd ed prev s0) as [Ht0 _].
    unfold after_abandon, bind, logger. cbn. congruence.
  - cbv zeta.
    destruct (import_product_persist upstream md args n i product s)
      as (Hno & Hkeep & Hok).
    split; [exact Hno|]. split; [exact Hkeep|]. split; [exact Hok|].
    intros Hret. cbn [import_products]. unfold bind.
    destruct (import_product upstream md args n i product s) as [[[]|e] s'];
      [reflexivity|discriminate Hret].
Qed.

Lemma scripted_http_only replies otherwise :
  Forall (fun reply => exists r, reply = Answer r
            /\ (400 <= status_code r < 600 \/ exists j, body r = Some j))
         (otherwise :: replies) ->
  http_only (scripted replies otherwise).
Proof.
  intros H n rq. unfold scripted.
  inversion H as [|x xs Hother Hreplies]; subst.
  destruct (nth_in_or_default n replies otherwise) as [Hin | ->];
    [|exact Hother].
  rewrite Forall_forall in Hreplies. now apply Hreplies.
Qed.

(** C7 on a loop whose first request is answered with 403 (the second
    window is not requested), and on a run over BTC-USD and ETH-USD from
    2018-01-17 with three windows each, against an upstream that answers
    the second request with 403: the first batch of BTC-USD is stored, its
    second window fails and its third is not requested, and the three
    windows of ETH-USD follow. *)
Lemma terminal_failure_abandons_product_witness :
  let refuses := scripted [status_only 403] (ok_with sample_batch) in
  let w1 := (0, minutes 300) in
  let w2 := (minutes 300, minutes 600) in
  let loop := get_candles_for refuses (persist 1 1 "BTC-USD") "BTC-USD" 0
                (minutes 301) [w1; w2] 0 (initial_state (minutes 601) []) in
  let up := scripted [ok_with sample_batch; status_only 403] (ok_with []) in
  let args := mkArgs (Some "2018-01-17") None in
  let s0 := initial_state (1516201260 * usec_per_second) [] in
  let md := load_module s0 in
  let btc := import_product up md args 2 1 "BTC-USD" s0 in
  let out := import_products up md args 2 1 ["BTC-USD"; "ETH-USD"] s0 in
  (fst loop = Ok tt /\ sent (snd loop) = [candles_request "BTC-USD" w1]
   /\ table (snd loop) = [])
  /\ (fst btc = Ok tt /\ length (sent (snd btc)) = 2%nat
      /\ row_count (table (snd btc)) = 4%nat)
  /\ (fst out = Ok tt /\ length (sent (snd out)) = 5%nat
      /\ row_count (table (snd out)) = 4%nat).
Proof.
  intros refuses w1 w2 loop up args s0 md btc out.
  split; [|split].
  - pose (s := initial_state (minutes 601) []).
    pose (s1 := snd (get refuses (candles_request "BTC-USD" w1)
                       (before_fetch "BTC-USD" w1 0 (minutes 301) 0 s))).
    destruct (proj1 (terminal_failure_abandons_product refuses (mkModule 0)
                       no_override 1 1 "BTC-USD" [] s)
                (persist 1 1 "BTC-USD") 0 (minutes 301) w1 [w2] 0 s 403 s1 eq_refl)
      as (Hrun & Hsent & Htable).
    assert (E : loop = (Ok tt, after_abandon 403 s1)) by exact Hrun.
    rewrite E. cbn [fst snd].
    split; [reflexivity|]. split; [rewrite Hsent|rewrite Htable]; reflexivity.
  - assert (Hup : http_only up).
    { apply scripted_http_only. repeat constructor; eexists; split;
        try reflexivity; cbn; (lia || eauto). }
    destruct (terminal_failure_abandons_product up md args 2 1 "BTC-USD"
                ["ETH-USD"] s0) as (_ & _ & _ & Hreturns & _).
    split; [|split; vm_compute; reflexivity].
    apply Hreturns; [exact Hup|]. eexists. reflexivity.
  - assert (Hup : http_only up).
    { apply scripted_http_only. repeat constructor; eexists; split;
        try reflexivity; cbn; (lia || eauto). }
    destruct (terminal_failure_abandons_product up md args 2 1 "BTC-USD"
                ["ETH-USD"] s0) as (_ & _ & _ & Hreturns & Hnext).
    assert (Hbtc : fst btc = Ok tt).
    { apply Hreturns; [exact Hup|]. eexists. reflexivity. }
    assert (Hout : out = import_products up md args 2 2 ["ETH-USD"] (snd btc))
      by exact (Hnext Hbtc).
    rewrite Hout. split; [|split]; vm_compute; reflexivity.
Defined.

(** C10 (the default end date is bound once).  The default of [end_date]
    is the clock at the time the module was loaded.  Two calls of
    [get_candles] for the same product and start date that leave
    [end_date] out, made in whatever states and so at whatever times of the
    run, go through the same windows, those up to the load time less 300
    minutes: with every request answered, the requests the two calls make
    are the same, one for each of these windows in order. *)
Theorem default_end_date_bound_once (upstream : Upstream) (s0 s1 s2 : State)
    (i n : nat) (product : string) (start_date : datetime) :
  always_ok upstream ->
  let md := load_module s0 in
  let run s := get_candles upstream (persist i n product) product start_date
                 (get_candles_end_date_default md) s in
  let windows :=
    if clock s0 - minutes 300 <? start_date then []
    else daterange start_date (clock s0 - minutes 300) (minutes 300) in
  requests_since s1 (snd (run s1)) = map (candles_request product) windows
  /\ requests_since s2 (snd (run s2)) = map (candles_request product) windows
  /\ fst (run s1) = Ok tt /\ fst (run s2) = Ok tt.
Proof.
  intros Hup md run windows.
  assert (H : forall s, requests_since s (snd (run s))
                        = map (candles_request product) windows
                        /\ fst (run s) = Ok tt).
  { intros s. unfold run, windows, md, load_module.
    cbn [get_candles_end_date_default]. rewrite get_candles_unfold.
    destruct (clock s0 - minutes 300 <? start_date).
    - split; [|reflexivity]. apply requests_since_app. cbn.
      now rewrite app_nil_r.
    - destruct (get_candles_for_always_ok upstream i n product start_date
                  (clock s0 - minutes 300)
                  (daterange start_date (clock s0 - minutes 300) (minutes 300))
                  (date start_date) s Hup) as [Hok Hsent].
      split; [now apply requests_since_app|exact Hok]. }
  destruct (H s1) as [R1 O1]. destruct (H s2) as [R2 O2]. auto.
Qed.

Lemma exchange_always_ok : always_ok exchange.
Proof. intros n rq. eexists. reflexivity. Qed.

(** C10 on a module loaded at 2018-01-17 12:00:00: a call an hour and a
    call two days after the load make the same requests. *)
Lemma default_end_date_bound_once_witness :
  let loaded := initial_state (1516190400 * usec_per_second) [] in
  let hour_later := initial_state (1516194000 * usec_per_second) [] in
  let days_later := initial_state (1516363200 * usec_per_second) [] in
  let run s := get_candles exchange (persist 1 1 "BTC-USD") "BTC-USD"
                 (1516147200 * usec_per_second)
                 (get_candles_end_date_default (load_module loaded)) s in
  requests_since hour_later (snd (run hour_later))
  = requests_since days_later (snd (run days_later)).
Proof.
  intros loaded hour_later days_later run.
  destruct (default_end_date_bound_once exchange loaded hour_later days_later
              1 1 "BTC-USD" (1516147200 * usec_per_second) exchange_always_ok)
    as (H1 & H2 & _).
  exact (eq_trans H1 (eq_sym H2)).
Defined.

(** C1, on the code.  A run at 2018-01-17 05:01:00 that resumes BTC-USD from
    the stored minute 00:00:00, against an upstream that answers each
    request with the records of the window asked for: the one window
    requested is 00:00:00 to 05:00:00, and the record of 04:59:00, two
    minutes old, is stored although it lies within 300 minutes of the time
    of the call. *)
Lemma main_stores_record_inside_margin :
  let now := 1516165260 * usec_per_second in
  let s0 := initial_state now [row_at "BTC-USD" 1516147200] in
  let out := program exchange (mkArgs None (Some "BTC-USD")) s0 in
  fst out = Ok tt
  /\ sent (snd out)
     = [candles_request "BTC-USD" (1516147200 * usec_per_second,
                                   1516165200 * usec_per_second)]
  /\ has_key (table (snd out)) "BTC-USD" (str_int 1516165140) = true
  /\ now - minutes 300 <= 1516165140 * usec_per_second < now.
Proof.
  vm_compute. repeat split; try reflexivity; discriminate.
Qed.

(* ===================================================================== *)
(** ** More about [daterange] *)
(* ===================================================================== *)

(** Whatever the bound, a run of the generator that is exhausted has
    yielded [daterange]. *)
Lemma daterange_run_sound end_ step fuel curr ws :
  0 < step ->
  daterange_run fuel curr end_ step = Some ws -> ws = daterange curr end_ step.
Proof.
  intros Hstep. revert curr ws.
  induction fuel as [|fuel IH]; intros curr ws; cbn; unfold daterange_next;
    destruct (Z.ltb_spec curr end_) as [Hlt|Hge].
  - discriminate.
  - intros [= <-]. symmetry. now apply daterange_nil.
  - destruct (daterange_run fuel (curr + step) end_ step) as [ws'|] eqn:Hrun;
      [|discriminate].
    intros [= <-]. rewrite (IH _ _ Hrun). symmetry. now apply daterange_cons.
  - intros [= <-]. symmetry. now apply daterange_nil.
Qed.

(** X1.  With a step that is zero or negative and [start < end_] the
    [while curr < end] of [daterange] never fails: after any number [n] of
    windows for which the cursor [start + n*step] is still a datetime, not
    before [datetime.min], the generator has yielded [n] windows and is not
    exhausted.  For a step of zero that is every [n]; for a negative step
    the generator can end only by the [OverflowError] of [curr + step]. *)
Theorem daterange_nonpositive_step_not_exhausted (start end_ : datetime)
    (step : timedelta) (n : nat) :
  start < end_ -> step <= 0 ->
  min_datetime <= start + Z.of_nat n * step ->
  daterange_run n start end_ step = None.
Proof.
  intros Hlt Hstep _. now apply daterange_run_diverges.
Qed.

Lemma daterange_nonpositive_step_not_exhausted_witness :
  0 < 10 /\ -3 <= 0 /\ min_datetime <= 0 + Z.of_nat 1000 * -3
  /\ daterange_run 1000 0 10 (-3) = None.
Proof.
  split; [lia|]. split; [lia|].
  split; [unfold min_datetime, min_timestamp, usec_per_second; lia|].
  exact (daterange_nonpositive_step_not_exhausted 0 10 (-3) 1000
           ltac:(lia) ltac:(lia)
           ltac:(unfold min_datetime, min_timestamp, usec_per_second; lia)).
Defined.

(** X2.  For a positive step, a run of the generator that is exhausted has
    yielded the span divided by the step, rounded up, windows, and none
    when [end_ <= start]; every window is one step long and starts in
    [[start, end_)]; the last one ends at [end_] or after it, by less than
    a step. *)
Theorem daterange_count_and_overshoot (start end_ : datetime) (step : timedelta)
    (fuel : nat) (ws : list window) :
  0 < step ->
  daterange_run fuel start end_ step = Some ws ->
  Z.of_nat (length ws) = Z.max 0 ((end_ - start + step - 1) / step)
  /\ (end_ <= start -> ws = [])
  /\ (forall w, In w ws -> snd w = fst w + step /\ start <= fst w < end_)
  /\ (forall w, nth_error ws (length ws - 1) = Some w ->
        end_ <= snd w < end_ + step).
Proof.
  intros Hstep Hrun. apply daterange_run_sound in Hrun; [|exact Hstep]. subst ws.
  split; [rewrite daterange_length by assumption; unfold daterange_len; lia|].
  split; [intros Hge; now apply daterange_nil|].
  split.
  { intros w Hin.
    destruct (daterange_In_start _ _ Hstep _ _ Hin) as (H1 & H2 & H3). lia. }
  intros w Hlast.
  destruct (daterange_nth _ _ Hstep _ _ _ Hlast) as [-> Hlt]. cbn [snd].
  split; [|lia].
  set (n := length (daterange start end_ step)) in *.
  assert (Hn : (0 < n)%nat).
  { destruct (nth_error_Some (daterange start end_ step) (n - 1)) as [H _].
    fold n in H. assert (n - 1 < n)%nat by (apply H; congruence). lia. }
  destruct (Z_lt_le_dec (start + Z.of_nat (S (n - 1)) * step) end_) as [Hin|Hout];
    [|lia].
  apply (daterange_nth_exists _ _ Hstep) in Hin; [|lia].
  assert (Hnone : nth_error (daterange start end_ step) (S (n - 1)) = None)
    by (apply nth_error_None; fold n; lia).
  congruence.
Qed.

Lemma daterange_count_and_overshoot_witness :
  Z.of_nat (length [(0, 3); (3, 6); (6, 9); (9, 12)]) = Z.max 0 ((10 - 0 + 3 - 1) / 3)
  /\ (forall w, nth_error [(0, 3); (3, 6); (6, 9); (9, 12)] 3 = Some w ->
        10 <= snd w < 10 + 3).
Proof.
  destruct (daterange_count_and_overshoot 0 10 3 7 [(0, 3); (3, 6); (6, 9); (9, 12)]
              ltac:(lia) eq_refl) as (Hlen & _ & _ & Hlast).
  split; [exact Hlen|exact Hlast].
Defined.

(** X3.  For a positive step, the windows from the cursor [k] steps on are
    the windows from [start] less the first [k]: a generator started at a
    window boundary yields what is left of the sequence. *)
Theorem daterange_resume (start end_ : datetime) (step : timedelta) (k : nat) :
  0 < step ->
  skipn k (daterange start end_ step)
  = daterange (start + Z.of_nat k * step) end_ step.
Proof.
  intros Hstep. revert start. induction k as [|k IH]; intros start.
  - cbn [skipn]. f_equal. lia.
  - destruct (Z_lt_le_dec start end_) as [Hlt|Hge].
    + rewrite daterange_cons by assumption. cbn [skipn]. rewrite IH.
      f_equal. lia.
    + rewrite (daterange_nil _ _ Hstep start Hge), skipn_nil.
      symmetry. apply daterange_nil; [exact Hstep|nia].
Qed.

Lemma daterange_resume_witness :
  0 < 3 /\ skipn 2 (daterange 0 10 3) = daterange 6 10 3.
Proof.
  split; [lia|]. exact (daterange_resume 0 10 3 2 ltac:(lia)).
Defined.

(* ===================================================================== *)
(** ** More about [get]: the whole run of its loop *)
(* ===================================================================== *)

Section GetTrace.

Variable upstream : Upstream.

(** The loop from the index [i] on: [k] attempts answered with 429 or 500
    and retried, then one attempt that ends the loop. *)
Lemma get_for_trace rq m :
  forall i r0 s, (i + m = tries)%nat -> (1 <= m)%nat ->
  let out := get_for upstream rq (seq i m) r0 s in
  exists k statuses,
    (k < m)%nat /\ length statuses = k
    /\ (forall j, (j < k)%nat ->
          exists r, upstream (length (sent s) + j)%nat rq = Answer r
                    /\ (status_code r = 429 \/ status_code r = 500)
                    /\ nth_error statuses j = Some (status_code r))
    /\ sent (snd out) = sent s ++ repeat rq (S k)
    /\ slept (snd out) = slept s ++ repeat seconds_1 k
    /\ clock (snd out) = clock s + Z.of_nat k * seconds_1
    /\ log (snd out) = log s ++ retry_log statuses
    /\ table (snd out) = table s
    /\ ((exists r, upstream (length (sent s) + k)%nat rq = Answer r
                   /\ ~ (400 <= status_code r < 600)
                   /\ fst out = Ok (Some r))
        \/ (exists r, upstream (length (sent s) + k)%nat rq = Answer r
                      /\ 400 <= status_code r < 600
                      /\ ((status_code r <> 429 /\ status_code r <> 500)
                          \/ (i + k = tries - 1)%nat)
                      /\ fst out = Raise (HTTPError (status_code r)))
        \/ (upstream (length (sent s) + k)%nat rq = NoAnswer
            /\ fst out = Raise ConnectionError)).
Proof.
  induction m as [|m IH]; intros i r0 s Him Hm; [lia|].
  cbn [seq]. cbv zeta.
  assert (Hstop : forall res,
            get_for upstream rq (i :: seq (S i) m) r0 s
            = (res, mkState (clock s) (sent s ++ [rq]) (slept s) (log s) (table s)) ->
            ((exists r, upstream (length (sent s) + 0)%nat rq = Answer r
                        /\ ~ (400 <= status_code r < 600) /\ res = Ok (Some r))
             \/ (exists r, upstream (length (sent s) + 0)%nat rq = Answer r
                           /\ 400 <= status_code r < 600
                           /\ ((status_code r <> 429 /\ status_code r <> 500)
                               \/ (i + 0 = tries - 1)%nat)
                           /\ res = Raise (HTTPError (status_code r)))
             \/ (upstream (length (sent s) + 0)%nat rq = NoAnswer
                 /\ res = Raise ConnectionError)) ->
            exists k statuses,
              (k < S m)%nat /\ length statuses = k
              /\ (forall j, (j < k)%nat ->
                    exists r, upstream (length (sent s) + j)%nat rq = Answer r
                              /\ (status_code r = 429 \/ status_code r = 500)
                              /\ nth_error statuses j = Some (status_code r))
              /\ sent (snd (get_for upstream rq (i :: seq (S i) m) r0 s))
                 = sent s ++ repeat rq (S k)
              /\ slept (snd (get_for upstream rq (i :: seq (S i) m) r0 s))
                 = slept s ++ repeat seconds_1 k
              /\ clock (snd (get_for upstream rq (i :: seq (S i) m) r0 s))
                 = clock s + Z.of_nat k * seconds_1
              /\ log (snd (get_for upstream rq (i :: seq (S i) m) r0 s))
                 = log s ++ retry_log statuses
              /\ table (snd (get_for upstream rq (i :: seq (S i) m) r0 s)) = table s
              /\ ((exists r, upstream (length (sent s) + k)%nat rq = Answer r
                             /\ ~ (400 <= status_code r < 600)
                             /\ fst (get_for upstream rq (i :: seq (S i) m) r0 s)
                                = Ok (Some r))
                  \/ (exists r, upstream (length (sent s) + k)%nat rq = Answer r
                                /\ 400 <= status_code r < 600
                                /\ ((status_code r <> 429 /\ status_code r <> 500)
                                    \/ (i + k = tries - 1)%nat)
                                /\ fst (get_for upstream rq (i :: seq (S i) m) r0 s)
                                   = Raise (HTTPError (status_code r)))
                  \/ (upstream (length (sent s) + k)%nat rq = NoAnswer
                      /\ fst (get_for upstream rq (i :: seq (S i) m) r0 s)
                         = Raise ConnectionError))).
  { intros res E Hres. exists 0%nat, []. rewrite E. cbn [fst snd sent slept clock log table].
    split; [lia|]. split; [reflexivity|]. split; [intros j Hj; lia|].
    split; [reflexivity|]. split; [cbn; now rewrite app_nil_r|].
    split; [cbn; lia|]. split; [cbn; now rewrite app_nil_r|].
    split; [reflexivity|]. exact Hres. }
  rewrite Nat.add_0_r in Hstop.
  destruct (upstream (length (sent s)) rq) as [r|] eqn:Hup.
  2:{ apply (Hstop _ (get_for_no_answer upstream rq i _ r0 s Hup)).
      right. right. now split. }
  destruct (Z_lt_le_dec (status_code r) 400) as [Hlo|Hlo].
  { apply (Hstop _ (get_for_break upstream rq i _ r0 s r Hup ltac:(lia))).
    left. exists r. repeat split; [lia]. }
  destruct (Z_lt_le_dec (status_code r) 600) as [Hhi|Hhi].
  2:{ apply (Hstop _ (get_for_break upstream rq i _ r0 s r Hup ltac:(lia))).
      left. exists r. repeat split; [lia]. }
  destruct (Nat.lt_ge_cases i (tries - 1)) as [Hi|Hi].
  2:{ apply (Hstop _ (get_for_raise upstream rq i _ r0 s r Hup ltac:(lia)
                        (or_intror Hi))).
      right. left. exists r. repeat split; try lia;
        try (right; unfold tries in *; lia). }
  assert (Hdec : (status_code r = 429 \/ status_code r = 500)
                 \/ (status_code r <> 429 /\ status_code r <> 500)) by lia.
  destruct Hdec as [Htr|Hperm].
  2:{ apply (Hstop _ (get_for_raise upstream rq i _ r0 s r Hup ltac:(lia)
                        (or_introl Hperm))).
      right. left. exists r. repeat split; try lia; try (now left). }
  clear Hstop.
  rewrite (get_for_retry upstream rq i _ r0 s r Hup Htr Hi).
  set (s1 := mkState _ _ _ _ _).
  assert (Hm' : (1 <= m)%nat) by (unfold tries in *; lia).
  destruct (IH (S i) (Some r) s1 ltac:(lia) Hm')
    as (k & statuses & Hk & Hlen & Hprev & Hsent & Hslept & Hclock & Hlog
        & Htable & Hout).
  assert (Hlen1 : length (sent s1) = S (length (sent s)))
    by (unfold s1; cbn [sent]; apply length_snoc).
  exists (S k), (status_code r :: statuses).
  split; [lia|]. split; [cbn; lia|]. split.
  { intros [|j] Hj.
    - exists r. rewrite Nat.add_0_r. auto.
    - destruct (Hprev j ltac:(lia)) as (r' & Hr' & Ht' & Hn').
      exists r'. rewrite Hlen1 in Hr'.
      replace (length (sent s) + S j)%nat with (S (length (sent s)) + j)%nat by lia.
      auto. }
  split; [rewrite Hsent; unfold s1; cbn [sent repeat]; now rewrite <- app_assoc|].
  split; [rewrite Hslept; unfold s1; cbn [slept repeat]; now rewrite <- app_assoc|].
  split; [rewrite Hclock; unfold s1; cbn [clock]; lia|].
  split; [rewrite Hlog; unfold s1; cbn [log]; now rewrite <- !app_assoc|].
  split; [rewrite Htable; reflexivity|].
  rewrite Hlen1 in Hout.
  replace (length (sent s) + S k)%nat with (S (length (sent s)) + k)%nat by lia.
  replace (i + S k)%nat with (S i + k)%nat by lia.
  exact Hout.
Qed.

(** The run of [get]: the loop, then [r.json()]. *)
Lemma get_trace rq s :
  let out := get upstream rq s in
  exists k statuses,
    (k < tries)%nat /\ length statuses = k
    /\ (forall j, (j < k)%nat ->
          exists r, upstream (length (sent s) + j)%nat rq = Answer r
                    /\ (status_code r = 429 \/ status_code r = 500)
                    /\ nth_error statuses j = Some (status_code r))
    /\ sent (snd out) = sent s ++ repeat rq (S k)
    /\ slept (snd out) = slept s ++ repeat seconds_1 k
    /\ clock (snd out) = clock s + Z.of_nat k * seconds_1
    /\ log (snd out) = log s ++ retry_log statuses
    /\ table (snd out) = table s
    /\ ((exists r, upstream (length (sent s) + k)%nat rq = Answer r
                   /\ ~ (400 <= status_code r < 600)
                   /\ fst out = match body r with
                                | Some j => Ok j
                                | None => Raise ValueError
                                end)
        \/ (exists r, upstream (length (sent s) + k)%nat rq = Answer r
                      /\ 400 <= status_code r < 600
                      /\ ((status_code r <> 429 /\ status_code r <> 500)
                          \/ k = (tries - 1)%nat)
                      /\ fst out = Raise (HTTPError (status_code r)))
        \/ (upstream (length (sent s) + k)%nat rq = NoAnswer
            /\ fst out = Raise ConnectionError)).
Proof.
  cbv zeta.
  destruct (get_for_trace rq tries 0%nat None s eq_refl ltac:(unfold tries; lia))
    as (k & statuses & Hk & Hlen & Hprev & Hsent & Hslept & Hclock & Hlog
        & Htable & Hout).
  exists k, statuses. unfold get, bind.
  destruct (get_for upstream rq (seq 0 tries) None s) as [[[r0|]|e] s1];
    cbn [fst snd] in *.
  - assert (Hjson : json r0 s1
                    = (match body r0 with Some j => Ok j | None => Raise ValueError end,
                       s1)).
    { unfold json. destruct (body r0); reflexivity. }
    rewrite Hjson. cbn [fst snd].
    repeat (split; [assumption|]).
    destruct Hout as [(r & Hr & Hst & E) | [(r & _ & _ & _ & E) | (_ & E)]];
      try discriminate E.
    injection E as <-. left. exists r0. auto.
  - exfalso.
    destruct Hout as [(r & _ & _ & E) | [(r & _ & _ & _ & E) | (_ & E)]];
      discriminate E.
  - repeat (split; [assumption|]).
    destruct Hout as [(r & _ & _ & E) | [(r & Hr & Hst & Hwhy & E) | (Hr & E)]];
      [discriminate E| |].
    + right. left. exists r.
      split; [assumption|]. split; [assumption|].
      split; [|now injection E as ->].
      destruct Hwhy as [Hperm|Hlast]; [now left|right; lia].
    + right. right. split; [assumption|now injection E as ->].
Qed.

End GetTrace.

(** X4.  Whatever the upstream answers, [get] makes at least one request
    and at most three, all of them the request it was given; it sleeps one
    second after each attempt but the last; the attempts before the last
    were all answered with 429 or 500, and for each of them the log gets a
    warning with that status and the notice of the retry, and nothing else;
    the table is not touched. *)
Theorem get_attempts_and_sleeps (upstream : Upstream) (rq : Request) (s : State) :
  let out := get upstream rq s in
  exists k statuses,
    (k < 3)%nat /\ length statuses = k
    /\ (forall j, (j < k)%nat ->
          exists r, upstream (length (sent s) + j)%nat rq = Answer r
                    /\ (status_code r = 429 \/ status_code r = 500)
                    /\ nth_error statuses j = Some (status_code r))
    /\ sent (snd out) = sent s ++ repeat rq (S k)
    /\ slept (snd out) = slept s ++ repeat seconds_1 k
    /\ clock (snd out) = clock s + Z.of_nat k * seconds_1
    /\ log (snd out) = log s ++ retry_log statuses
    /\ table (snd out) = table s.
Proof.
  cbv zeta.
  destruct (get_trace upstream rq s)
    as (k & statuses & Hk & Hlen & Hprev & Hsent & Hslept & Hclock & Hlog
        & Htable & _).
  exists k, statuses. auto 10.
Qed.

(** X5.  When [get] returns a body, it is the body of the answer to its
    last request, that answer has no error status, and every request
    before it was answered with 429 or 500. *)
Theorem get_returns_first_good_answer (upstream : Upstream) (rq : Request)
    (s : State) (j : Json) :
  fst (get upstream rq s) = Ok j ->
  exists k r,
    (k < 3)%nat
    /\ sent (snd (get upstream rq s)) = sent s ++ repeat rq (S k)
    /\ upstream (length (sent s) + k)%nat rq = Answer r
    /\ ~ (400 <= status_code r < 600)
    /\ body r = Some j
    /\ (forall i, (i < k)%nat ->
          exists r', upstream (length (sent s) + i)%nat rq = Answer r'
                     /\ (status_code r' = 429 \/ status_code r' = 500)).
Proof.
  intros Hok.
  destruct (get_trace upstream rq s)
    as (k & statuses & Hk & _ & Hprev & Hsent & _ & _ & _ & _ & Hout).
  cbv zeta in *. rewrite Hok in Hout.
  destruct Hout as [(r & Hr & Hst & E) | [(r & _ & _ & _ & E) | (_ & E)]];
    try discriminate E.
  exists k, r. split; [exact Hk|]. split; [exact Hsent|].
  split; [exact Hr|]. split; [exact Hst|]. split.
  - destruct (body r); [now injection E as ->|discriminate E].
  - intros i Hi. destruct (Hprev i Hi) as (r' & Hr' & Ht & _). eauto.
Qed.

Lemma get_returns_first_good_answer_witness :
  let up := scripted [status_only 500; ok_with sample_batch] NoAnswer in
  let rq := candles_request "BTC-USD" (0, minutes 300) in
  exists k r,
    (k < 3)%nat
    /\ sent (snd (get up rq (initial_state 0 []))) = repeat rq (S k)
    /\ up k rq = Answer r
    /\ ~ (400 <= status_code r < 600)
    /\ body r = Some sample_batch.
Proof.
  intros up rq.
  destruct (get_returns_first_good_answer up rq (initial_state 0 []) sample_batch
              eq_refl) as (k & r & Hk & Hsent & Hr & Hst & Hbody & _).
  exists k, r. auto.
Defined.

(** X6.  When [get] raises an HTTP error, its status is the error status
    answered to its last request; that status is not 429 or 500 unless the
    request was the third; and every request before it was answered with
    429 or 500. *)
Theorem get_raises_status_answered (upstream : Upstream) (rq : Request)
    (s : State) (c : Z) :
  fst (get upstream rq s) = Raise (HTTPError c) ->
  exists k r,
    (k < 3)%nat
    /\ sent (snd (get upstream rq s)) = sent s ++ repeat rq (S k)
    /\ upstream (length (sent s) + k)%nat rq = Answer r
    /\ status_code r = c /\ 400 <= c < 600
    /\ ((c <> 429 /\ c <> 500) \/ k = 2%nat)
    /\ (forall i, (i < k)%nat ->
          exists r', upstream (length (sent s) + i)%nat rq = Answer r'
                     /\ (status_code r' = 429 \/ status_code r' = 500)).
Proof.
  intros Hraise.
  destruct (get_trace upstream rq s)
    as (k & statuses & Hk & _ & Hprev & Hsent & _ & _ & _ & _ & Hout).
  cbv zeta in *. rewrite Hraise in Hout.
  destruct Hout as [(r & _ & _ & E) | [(r & Hr & Hst & Hwhy & E) | (_ & E)]].
  - destruct (body r); discriminate E.
  - injection E as ->. exists k, r.
    split; [exact Hk|]. split; [exact Hsent|]. split; [exact Hr|].
    split; [reflexivity|]. split; [exact Hst|]. split; [exact Hwhy|].
    intros i Hi. destruct (Hprev i Hi) as (r' & Hr' & Ht & _). eauto.
  - discriminate E.
Qed.

Lemma get_raises_status_answered_witness :
  let up := scripted [status_only 429; status_only 404] NoAnswer in
  let rq := candles_request "BTC-USD" (0, minutes 300) in
  exists k r,
    (k < 3)%nat
    /\ sent (snd (get up rq (initial_state 0 []))) = repeat rq (S k)
    /\ up k rq = Answer r /\ status_code r = 404.
Proof.
  intros up rq.
  destruct (get_raises_status_answered up rq (initial_state 0 []) 404 eq_refl)
    as (k & r & Hk & Hsent & Hr & Hst & _).
  exists k, r. auto.
Defined.

(** X7.  [get] retries HTTP errors only.  A request that is not answered
    (a timeout, a refused connection) raises at once, and so does an answer
    without error status whose body is not JSON: the request just made is
    the last one, there is no sleep and nothing is logged. *)
Theorem get_other_failures_not_retried (upstream : Upstream) (rq : Request)
    (s : State) :
  let s1 := mkState (clock s) (sent s ++ [rq]) (slept s) (log s) (table s) in
  (upstream (length (sent s)) rq = NoAnswer ->
   get upstream rq s = (Raise ConnectionError, s1))
  /\ (forall r, upstream (length (sent s)) rq = Answer r ->
        ~ (400 <= status_code r < 600) -> body r = None ->
        get upstream rq s = (Raise ValueError, s1)).
Proof.
  intros s1. split.
  - intros Hup. unfold get, bind. cbn [seq tries].
    now rewrite (get_for_no_answer upstream rq 0 [1; 2]%nat None s Hup).
  - intros r Hup Hst Hbody. unfold get, bind. cbn [seq tries].
    rewrite (get_for_break upstream rq 0 [1; 2]%nat None s r Hup Hst).
    unfold json. now rewrite Hbody.
Qed.

Lemma get_other_failures_not_retried_witness :
  let rq := candles_request "BTC-USD" (0, minutes 300) in
  get (scripted [] NoAnswer) rq (initial_state 0 [])
  = (Raise ConnectionError, mkState 0 [rq] [] [] [])
  /\ get (scripted [status_only 200] NoAnswer) rq (initial_state 0 [])
     = (Raise ValueError, mkState 0 [rq] [] [] []).
Proof.
  intros rq. split.
  - exact (proj1 (get_other_failures_not_retried (scripted [] NoAnswer) rq
                    (initial_state 0 [])) eq_refl).
  - exact (proj2 (get_other_failures_not_retried
                    (scripted [status_only 200] NoAnswer) rq (initial_state 0 []))
                 (mkResponse 200 None) eq_refl ltac:(cbn; lia) eq_refl).
Defined.

(* ===================================================================== *)
(** ** More about the store *)
(* ===================================================================== *)

Lemma insert_all_length rows tbl :
  (length tbl <= length (insert_all rows tbl) <= length tbl + length rows)%nat.
Proof.
  revert tbl. induction rows as [|r rows IH]; intros tbl; [cbn; lia|].
  rewrite insert_all_cons. specialize (IH (insert_or_ignore r tbl)).
  assert (length tbl <= length (insert_or_ignore r tbl) <= S (length tbl))%nat.
  { unfold insert_or_ignore. destruct (has_key tbl (market r) (time r));
      [lia|rewrite length_snoc; lia]. }
  cbn [length]. lia.
Qed.

Lemma insert_all_In rows tbl r :
  In r (insert_all rows tbl) -> In r tbl \/ In r rows.
Proof.
  revert tbl. induction rows as [|r0 rows IH]; intros tbl; [now left|].
  rewrite insert_all_cons. intros Hin. apply IH in Hin.
  destruct Hin as [Hin|Hin]; [|right; now right].
  unfold insert_or_ignore in Hin.
  destruct (has_key tbl (market r0) (time r0)); [now left|].
  apply in_app_iff in Hin. destruct Hin as [Hin|[<-|[]]]; [now left|].
  right. now left.
Qed.

Lemma rows_of_In product candles r :
  In r (rows_of product candles)
  <-> exists c, In c candles /\ candle_row product c = Some r.
Proof.
  unfold rows_of. rewrite in_flat_map. split.
  - intros (c & Hc & Hin). exists c. split; [exact Hc|].
    destruct (candle_row product c) as [r'|]; [|destruct Hin].
    destruct Hin as [<-|[]]. reflexivity.
  - intros (c & Hc & Hrow). exists c. split; [exact Hc|].
    rewrite Hrow. now left.
Qed.

(** Inserting rows of one market leaves the rows of the others as they
    are. *)
Lemma insert_all_other_market rows tbl product other :
  (forall r, In r rows -> market r = product) -> other <> product ->
  filter (fun r => String.eqb (market r) other) (insert_all rows tbl)
  = filter (fun r => String.eqb (market r) other) tbl.
Proof.
  intros Hrows Hne. revert tbl.
  induction rows as [|r rows IH]; intros tbl; [reflexivity|].
  rewrite insert_all_cons, IH by (intros r' Hin; apply Hrows; now right).
  unfold insert_or_ignore. destruct (has_key tbl (market r) (time r));
    [reflexivity|].
  rewrite filter_app. cbn [filter].
  rewrite (Hrows r (or_introl eq_refl)).
  replace (String.eqb product other) with false; [now rewrite app_nil_r|].
  symmetry. apply String.eqb_neq. congruence.
Qed.

Lemma has_key_times_of tbl product txt :
  has_key tbl product txt = true <-> In txt (times_of tbl product).
Proof.
  unfold has_key, times_of. rewrite existsb_exists, in_map_iff. split.
  - intros (r & Hin & Hs). apply same_key_true in Hs. destruct Hs as [Hm Ht].
    exists r. split; [exact Ht|]. apply filter_In. split; [exact Hin|].
    now apply String.eqb_eq.
  - intros (r & Ht & Hin). apply filter_In in Hin. destruct Hin as [Hin Hm].
    exists r. split; [exact Hin|]. apply same_key_true.
    split; [now apply String.eqb_eq|exact Ht].
Qed.

(** The times stored for a product after an insert of rows of that product:
    those stored before, and those of the rows. *)
Lemma times_of_insert_all rows tbl product txt :
  (forall r, In r rows -> market r = product) ->
  In txt (times_of (insert_all rows tbl) product)
  <-> In txt (times_of tbl product) \/ In txt (map time rows).
Proof.
  intros Hrows. rewrite <- !has_key_times_of, insert_all_has_key, orb_true_iff.
  rewrite existsb_exists, in_map_iff. split.
  - intros [H|(r & Hin & Hs)]; [now left|]. right.
    apply same_key_true in Hs. exists r. tauto.
  - intros [H|(r & Ht & Hin)]; [now left|]. right.
    exists r. split; [exact Hin|]. apply same_key_true.
    split; [now apply Hrows|exact Ht].
Qed.

Lemma str_int_injective a b : str_int a = str_int b -> a = b.
Proof.
  intros H. apply (f_equal py_int) in H. rewrite !py_int_str_int in H.
  now injection H.
Qed.

(** The greatest of texts of numbers that are not negative and have [d]
    digits is the text of the greatest of the numbers. *)
Lemma fold_text_max_good d texts t0 :
  (forall txt, In txt (t0 :: texts) ->
     exists x, txt = str_int x /\ 0 <= x /\ ndigits x = d) ->
  exists m, fold_left text_max texts t0 = str_int m
            /\ In (str_int m) (t0 :: texts)
            /\ forall x, In (str_int x) (t0 :: texts) -> x <= m.
Proof.
  revert t0. induction texts as [|t1 texts IH]; intros t0 Hgood.
  - destruct (Hgood t0 (or_introl eq_refl)) as (x0 & -> & _ & _).
    exists x0. split; [reflexivity|]. split; [now left|].
    intros x [Hx|[]]. apply str_int_injective in Hx. lia.
  - destruct (Hgood t0 (or_introl eq_refl)) as (x0 & -> & H0 & E0).
    destruct (Hgood t1 (or_intror (or_introl eq_refl))) as (x1 & -> & H1 & E1).
    cbn [fold_left]. rewrite text_max_str_int by congruence.
    assert (Hmax : Z.max x0 x1 = x0 \/ Z.max x0 x1 = x1) by lia.
    destruct (IH (str_int (Z.max x0 x1))) as (m & Hm & Hin & Hle).
    { intros txt [<-|Hin].
      - exists (Z.max x0 x1). split; [reflexivity|].
        destruct Hmax as [-> | ->]; auto.
      - apply Hgood. right. now right. }
    exists m. split; [exact Hm|]. split.
    + destruct Hin as [Hin|Hin]; [|right; now right].
      rewrite <- Hin. destruct Hmax as [-> | ->]; [now left|right; now left].
    + assert (Hmm : Z.max x0 x1 <= m) by (apply Hle; now left).
      intros x [Hx|[Hx|Hx]].
      * apply str_int_injective in Hx. lia.
      * apply str_int_injective in Hx. lia.
      * apply Hle. now right.
Qed.

(** X8.  [insert_db] never removes a row, and adds at most one row for each
    record of the batch that has six fields. *)
Theorem insert_db_row_count_bounds (product : string) (candles : Json) (s : State) :
  let s' := snd (insert_db product candles s) in
  (row_count (table s) <= row_count (table s'))%nat
  /\ (row_count (table s')
      <= row_count (table s) + length (filter well_formed candles))%nat.
Proof.
  cbv zeta. rewrite insert_db_spec. cbn [snd table]. unfold row_count.
  pose proof (insert_all_length (rows_of product candles) (table s)) as H.
  rewrite rows_of_length in H. exact H.
Qed.

(** X9.  [insert_db] for one product leaves the rows of every other product
    as they are, and with them what [get_start_date] computes for the other
    product. *)
Theorem insert_db_other_products_untouched (product other : string)
    (candles : Json) (s : State) :
  other <> product ->
  let s' := snd (insert_db product candles s) in
  filter (fun r => String.eqb (market r) other) (table s')
  = filter (fun r => String.eqb (market r) other) (table s)
  /\ select_max_time (table s') other = select_max_time (table s) other
  /\ fst (get_start_date other s') = fst (get_start_date other s).
Proof.
  intros Hne. cbv zeta. rewrite insert_db_spec. cbn [snd].
  set (s' := mkState _ _ _ _ _).
  assert (Hf : filter (fun r => String.eqb (market r) other) (table s')
               = filter (fun r => String.eqb (market r) other) (table s)).
  { unfold s'. cbn [table]. apply (insert_all_other_market _ _ product);
      [apply rows_of_market|exact Hne]. }
  assert (Hmax : select_max_time (table s') other = select_max_time (table s) other).
  { rewrite !select_max_time_spec. unfold times_of. now rewrite Hf. }
  split; [exact Hf|]. split; [exact Hmax|].
  unfold get_start_date, bind, get_table. rewrite Hmax. unfold lift.
  destruct (select_max_time (table s) other) as [txt|].
  - destruct (py_int txt) as [n|]; [|reflexivity].
    destruct (utcfromtimestamp n); reflexivity.
  - destruct (dict_get PRODUCTS other) as [day|]; [|reflexivity].
    destruct (strptime_ymd day); reflexivity.
Qed.

Lemma insert_db_other_products_untouched_witness :
  let s := initial_state 0 [row_at "ETH-USD" 1516147200] in
  fst (get_start_date "ETH-USD" (snd (insert_db "BTC-USD" sample_batch s)))
  = fst (get_start_date "ETH-USD" s).
Proof.
  intros s.
  exact (proj2 (proj2 (insert_db_other_products_untouched "BTC-USD" "ETH-USD"
                         sample_batch s ltac:(discriminate)))).
Defined.

(** X10.  After [insert_db], the key of every record of the batch that has
    six fields is in the table, and every row of the table either was in
    it before or is the row of such a record of the batch. *)
Theorem insert_db_stores_batch_only (product : string) (candles : Json) (s : State) :
  let s' := snd (insert_db product candles s) in
  (forall c r, In c candles -> candle_row product c = Some r ->
     has_key (table s') product (time r) = true)
  /\ (forall r, In r (table s') ->
        In r (table s)
        \/ exists c, In c candles /\ candle_row product c = Some r).
Proof.
  cbv zeta. rewrite insert_db_spec. cbn [snd table]. split.
  - intros c r Hc Hrow. rewrite insert_all_has_key. apply orb_true_iff. right.
    apply existsb_exists. exists r. split.
    + apply rows_of_In. eauto.
    + apply same_key_true. split; [|reflexivity].
      apply (rows_of_market product candles). apply rows_of_In. eauto.
  - intros r Hin. apply insert_all_In in Hin. destruct Hin as [Hin|Hin];
      [now left|right]. now apply rows_of_In.
Qed.

Lemma insert_db_stores_batch_only_witness :
  has_key (table (snd (insert_db "BTC-USD" sample_batch (initial_state 0 []))))
          "BTC-USD" "1516147380" = true.
Proof.
  exact (proj1 (insert_db_stores_batch_only "BTC-USD" sample_batch
                  (initial_state 0 []))
               (candle 1516147380 "11205.0" "11226.71" "11226.7" "11205.01" "9.18")
               _ (or_introl eq_refl) eq_refl).
Defined.

(** X11.  Insert, then resume.  When the times stored for a product and
    the times of the records of a batch, all with six fields, are integers
    that are not negative and have the same number of digits, the start
    date [get_start_date] computes after [insert_db] of the batch is the
    greatest of all these times, read as a UTC datetime. *)
Theorem insert_db_then_resume (product : string) (candles : Json)
    (olds news : list Z) (d : nat) (s : State) :
  times_of (table s) product = map str_int olds ->
  Forall2 (fun c t => exists l h o cl v, c = [PInt t; l; h; o; cl; v])
          candles news ->
  olds ++ news <> [] ->
  (forall x, In x (olds ++ news) -> 0 <= x /\ ndigits x = d) ->
  exists m, In m (olds ++ news)
            /\ (forall x, In x (olds ++ news) -> x <= m)
            /\ fst (get_start_date product (snd (insert_db product candles s)))
               = utcfromtimestamp m.
Proof.
  intros Holds Hnews Hne Hgood.
  rewrite insert_db_spec. cbn [snd].
  set (s' := mkState _ _ _ _ _).
  assert (Htimes : map time (rows_of product candles) = map str_int news).
  { clear -Hnews. induction Hnews as [|c t cs ts (l & h & o & cl & v & ->) _ IH];
      [reflexivity|].
    rewrite rows_of_cons_wf. cbn [map time py_str]. now rewrite IH. }
  assert (Hmem : forall txt, In txt (times_of (table s') product)
                             <-> In txt (map str_int (olds ++ news))).
  { intros txt. unfold s'. cbn [table].
    rewrite (times_of_insert_all _ _ product) by apply rows_of_market.
    rewrite Holds, Htimes, map_app, in_app_iff. tauto. }
  destruct (times_of (table s') product) as [|t0 texts] eqn:Ht.
  { exfalso. destruct (olds ++ news) as [|x xs]; [now apply Hne|].
    apply (Hmem (str_int x)). now left. }
  destruct (fold_text_max_good d texts t0) as (m & Hm & Hin & Hle).
  { intros txt Hin. apply Hmem, in_map_iff in Hin.
    destruct Hin as (x & <- & Hx). exists x. split; [reflexivity|].
    now apply Hgood. }
  exists m. split; [|split].
  - apply Hmem, in_map_iff in Hin. destruct Hin as (x & Hx & Hin).
    apply str_int_injective in Hx. now subst x.
  - intros x Hx. apply Hle, Hmem. now apply in_map.
  - apply (get_start_date_stored product s' t0 texts m Ht).
    rewrite Hm. apply py_int_str_int.
Qed.

Lemma insert_db_then_resume_witness :
  let s := initial_state 0 [row_at "BTC-USD" 1516147200] in
  let batch := [candle 1516147260 "1.0" "2.0" "1.5" "1.7" "3.0";
                candle 1516147200 "1.0" "2.0" "1.5" "1.7" "3.0"] in
  exists m, In m [1516147200; 1516147260; 1516147200]
            /\ (forall x, In x [1516147200; 1516147260; 1516147200] -> x <= m)
            /\ fst (get_start_date "BTC-USD" (snd (insert_db "BTC-USD" batch s)))
               = utcfromtimestamp m.
Proof.
  intros s batch.
  refine (insert_db_then_resume "BTC-USD" batch [1516147200]
            [1516147260; 1516147200] 10 s eq_refl _ ltac:(discriminate) _).
  - repeat constructor; repeat eexists.
  - intros x Hx. cbn in Hx.
    repeat (destruct Hx as [<-|Hx]; [split; [lia|reflexivity]|]). destruct Hx.
Defined.

(* ===================================================================== *)
(** ** More about [get_candles] *)
(* ===================================================================== *)

Lemma get_candles_windows yield_ upstream product sd ed s :
  (ed - minutes 300 <? sd) = false ->
  get_candles upstream yield_ product sd ed s
  = get_candles_for upstream yield_ product sd (ed - minutes 300)
      (windows_for sd ed) (date sd) s.
Proof.
  intros H. rewrite get_candles_unfold. unfold windows_for. now rewrite H.
Qed.

(** X12.  When the end date less 300 minutes is not after the start date,
    [get_candles] yields nothing and makes no request, whatever consumes
    it: it returns with the clock, the requests, the sleeps and the table as
    they were, having logged the one debug message of the early return when
    the end date less 300 minutes is before the start date, and nothing
    when the two are equal. *)
Theorem get_candles_empty_range (upstream : Upstream) (yield_ : Json -> M unit)
    (product : string) (start_date end_date : datetime) (s : State) :
  end_date - minutes 300 <= start_date ->
  get_candles upstream yield_ product start_date end_date s
  = (Ok tt,
     mkState (clock s) (sent s) (slept s)
       (log s ++ if end_date - minutes 300 <? start_date
                 then [(DEBUG, MsgStartAfterEnd start_date
                                 (end_date - minutes 300))]
                 else [])
       (table s)).
Proof.
  intros Hle. rewrite get_candles_unfold.
  destruct (Z.ltb_spec (end_date - minutes 300) start_date) as [Hlt|Hge].
  - reflexivity.
  - rewrite daterange_nil by (try exact minutes_300_pos; lia).
    cbn. rewrite app_nil_r. now destruct s.
Qed.

Lemma get_candles_empty_range_witness :
  let now := 1516165260 * usec_per_second in
  let s := initial_state now [] in
  get_candles exchange (persist 1 1 "BTC-USD") "BTC-USD"
              (now - minutes 10) now s
  = (Ok tt, mkState now [] []
              [(DEBUG, MsgStartAfterEnd (now - minutes 10) (now - minutes 300))]
              []).
Proof.
  intros now s.
  exact (get_candles_empty_range exchange (persist 1 1 "BTC-USD") "BTC-USD"
           (now - minutes 10) now s ltac:(vm_compute; discriminate)).
Defined.

(** X13.  [get_candles] catches HTTP errors only.  When [get] raises
    another exception for a window (no answer, or a body that is not JSON),
    the exception leaves the loop as it is: nothing is logged, the windows
    left are not requested; it leaves the import of the product and the
    loop of [main], so the products left are not imported.  The rows stored
    until then are kept. *)
Theorem other_failures_end_the_run (upstream : Upstream) (md : Module)
    (args : Args) (n i : nat) (product : string) (products : list string)
    (s : State) :
  (forall yield_ sd ed w ws prev s0 e s1,
     get upstream (candles_request product w)
         (before_fetch product w sd ed prev s0) = (Raise e, s1) ->
     (forall c, e <> HTTPError c) ->
     get_candles_for upstream yield_ product sd ed (w :: ws) prev s0
     = (Raise e, s1))
  /\ (forall e, fst (import_product upstream md args n i product s) = Raise e ->
        import_products upstream md args n i (product :: products) s
        = (Raise e, snd (import_product upstream md args n i product s))
        /\ keeps_rows s (snd (import_product upstream md args n i product s))).
Proof.
  split.
  - intros yield_ sd ed w ws prev s0 e s1 Hget Hne.
    rewrite get_candles_for_cons, Hget.
    destruct e as [c| | | |key| |]; try reflexivity. now destruct (Hne c).
  - intros e He.
    destruct (import_product_persist upstream md args n i product s)
      as (_ & Hkeep & _).
    split; [|exact Hkeep]. cbn [import_products]. unfold bind.
    destruct (import_product upstream md args n i product s) as [[[]|e'] s'];
      cbn [fst snd] in *; [discriminate He|now injection He as ->].
Qed.

Lemma other_failures_end_the_run_witness :
  let up := scripted [ok_with sample_batch] NoAnswer in
  let args := mkArgs (Some "2018-01-17") None in
  let s0 := initial_state (1516201260 * usec_per_second) [] in
  fst (import_products up (load_module s0) args 2 1 ["BTC-USD"; "ETH-USD"] s0)
  = Raise ConnectionError.
Proof.
  intros up args s0.
  exact (f_equal fst
           (proj1 (proj2 (other_failures_end_the_run up (load_module s0) args
                            2 1 "BTC-USD" ["ETH-USD"] s0)
                         ConnectionError ltac:(vm_compute; reflexivity)))).
Defined.

Section Answering.

Variable f : Request -> Json.

Lemma get_answering rq s :
  get (answering f) rq s
  = (Ok (f rq), mkState (clock s) (sent s ++ [rq]) (slept s) (log s) (table s)).
Proof.
  unfold get, bind. cbn [seq tries].
  rewrite (get_for_break (answering f) rq 0 [1; 2]%nat None s
             (mkResponse 200 (Some (f rq))) eq_refl) by (cbn; lia).
  reflexivity.
Qed.

(** The rows a run over the windows [ws] inserts or ignores, in order. *)
Lemma get_candles_for_answering i n product sd ed ws prev s :
  let out := get_candles_for (answering f) (persist i n product) product sd ed
               ws prev s in
  fst out = Ok tt
  /\ sent (snd out) = sent s ++ map (candles_request product) ws
  /\ slept (snd out) = slept s ++ repeat seconds_0_5 (length ws)
  /\ table (snd out)
     = insert_all
         (flat_map (fun w => rows_of product (f (candles_request product w))) ws)
         (table s).
Proof.
  revert prev s. induction ws as [|w ws IH]; intros prev s.
  - cbn. now rewrite !app_nil_r.
  - cbv zeta. rewrite get_candles_for_cons, get_answering, persist_spec.
    set (s2 := mkState _ _ _ _ _).
    destruct (IH (date (fst w)) s2) as (Hok & Hsent & Hslept & Htable).
    destruct (before_fetch_frame product w sd ed prev s) as [Ht0 Hsent0].
    assert (Hslept0 : slept (before_fetch product w sd ed prev s) = slept s).
    { unfold before_fetch, bind, logger.
      destruct (negb (date (fst w) =? prev)); reflexivity. }
    split; [exact Hok|]. split; [|split].
    + rewrite Hsent. unfold s2. cbn [sent map]. rewrite Hsent0.
      now rewrite <- app_assoc.
    + rewrite Hslept. unfold s2. cbn [slept length repeat]. rewrite Hslept0.
      now rewrite <- app_assoc.
    + rewrite Htable. unfold s2. cbn [table flat_map]. rewrite Ht0.
      now rewrite insert_all_app.
Qed.

Lemma get_candles_answering i n product sd ed s :
  let out := get_candles (answering f) (persist i n product) product sd ed s in
  fst out = Ok tt
  /\ sent (snd out) = sent s ++ map (candles_request product) (windows_for sd ed)
  /\ slept (snd out) = slept s ++ repeat seconds_0_5 (length (windows_for sd ed))
  /\ table (snd out)
     = insert_all
         (flat_map (fun w => rows_of product (f (candles_request product w)))
                   (windows_for sd ed))
         (table s).
Proof.
  cbv zeta.
  destruct (ed - minutes 300 <? sd) eqn:Hlt.
  - rewrite get_candles_unfold. unfold windows_for. rewrite Hlt.
    cbn. now rewrite !app_nil_r.
  - rewrite get_candles_windows by assumption.
    apply get_candles_for_answering.
Qed.

End Answering.

(** X14.  Against an upstream that answers every request with 200 and a
    body that depends on the request alone, [get_candles] consumed by the
    loop of [main] returns, having made one request for each of its
    windows, in order, and slept half a second after each batch, empty
    batches too; the table is the one it started from with the records of
    the answers inserted or ignored one window after the other. *)
Theorem get_candles_persists_every_window (f : Request -> Json) (i n : nat)
    (product : string) (start_date end_date : datetime) (s : State) :
  let out := get_candles (answering f) (persist i n product) product
               start_date end_date s in
  let ws := windows_for start_date end_date in
  fst out = Ok tt
  /\ sent (snd out) = sent s ++ map (candles_request product) ws
  /\ slept (snd out) = slept s ++ repeat seconds_0_5 (length ws)
  /\ table (snd out)
     = insert_all
         (flat_map (fun w => rows_of product (f (candles_request product w))) ws)
         (table s).
Proof.
  apply get_candles_answering.
Qed.

(** X15.  Against such an upstream, importing the same range of a product
    a second time changes no row and adds none. *)
Theorem get_candles_rerun_changes_nothing (f : Request -> Json) (i n : nat)
    (product : string) (start_date end_date : datetime) (s : State) :
  let run := get_candles (answering f) (persist i n product) product
               start_date end_date in
  table (snd (run (snd (run s)))) = table (snd (run s)).
Proof.
  cbv zeta.
  destruct (get_candles_answering f i n product start_date end_date s)
    as (_ & _ & _ & H1).
  destruct (get_candles_answering f i n product start_date end_date
              (snd (get_candles (answering f) (persist i n product) product
                      start_date end_date s))) as (_ & _ & _ & H2).
  rewrite H2, H1. apply insert_all_idempotent.
Qed.

(* ===================================================================== *)
(** ** More about the driver *)
(* ===================================================================== *)

Lemma dict_get_In d k v : dict_get d k = Ok v -> In k (map fst d).
Proof.
  induction d as [|[k' v'] d IH]; cbn; [discriminate|].
  destruct (String.eqb_spec k' k) as [->|Hne]; [now left|].
  intros H. right. now apply IH.
Qed.

Lemma dict_get_missing d k : ~ In k (map fst d) -> dict_get d k = Raise (KeyError k).
Proof.
  induction d as [|[k' v'] d IH]; cbn; [reflexivity|].
  intros Hnot. destruct (String.eqb_spec k' k) as [->|Hne]; [tauto|].
  apply IH. tauto.
Qed.

Lemma dict_get_present d k :
  In k (map fst d) -> exists v, dict_get d k = Ok v /\ In (k, v) d.
Proof.
  induction d as [|[k' v'] d IH]; cbn; [intros []|].
  destruct (String.eqb_spec k' k) as [->|Hne].
  - intros _. exists v'. split; [reflexivity|now left].
  - intros [H|H]; [congruence|].
    destruct (IH H) as (v & Hv & Hin). exists v. split; [exact Hv|now right].
Qed.

Lemma selected_nonempty p : p <> EmptyString -> selected (Some p) = Some p.
Proof. destruct p; [congruence|reflexivity]. Qed.

(** X16.  A [--product] that is not in the registry ends [main] with a
    [KeyError] when the products are selected, before any product is
    looked at: no request is made, no start date is computed and the table
    is not touched. *)
Theorem main_unknown_product (upstream : Upstream) (md : Module) (args : Args)
    (p : string) (s : State) :
  arg_product args = Some p -> p <> EmptyString ->
  ~ In p (map fst PRODUCTS) ->
  main upstream md args s = (Raise (KeyError p), s).
Proof.
  intros Hp Hne Hnot. unfold main, create_table, bind, ret, lift.
  rewrite Hp, (selected_nonempty p Hne), (dict_get_missing PRODUCTS p Hnot).
  reflexivity.
Qed.

Lemma main_unknown_product_witness :
  main exchange (mkModule 0) (mkArgs None (Some "XRP-USD")) (initial_state 0 [])
  = (Raise (KeyError "XRP-USD"), initial_state 0 []).
Proof.
  refine (main_unknown_product exchange (mkModule 0) (mkArgs None (Some "XRP-USD"))
            "XRP-USD" (initial_state 0 []) eq_refl ltac:(discriminate) _).
  cbn. intros H. repeat (destruct H as [H|H]; [discriminate H|]). exact H.
Defined.

Section DriverRuns.

Variable upstream : Upstream.

(** The table after the loop of [get_candles] with the body of [main]: the
    table before it, with rows of the product inserted or ignored. *)
Lemma get_candles_for_persist_table i n product sd ed ws prev s :
  exists rows,
    table (snd (get_candles_for upstream (persist i n product) product sd ed
                  ws prev s))
    = insert_all rows (table s)
    /\ forall r, In r rows -> market r = product.
Proof.
  revert prev s. induction ws as [|w ws IH]; intros prev s.
  - exists []. split; [reflexivity|intros r []].
  - rewrite get_candles_for_cons.
    destruct (before_fetch_frame product w sd ed prev s) as [Ht0 _].
    destruct (get_frame upstream (candles_request product w)
                (before_fetch product w sd ed prev s)) as (Ht1 & _).
    destruct (get upstream (candles_request product w)
                (before_fetch product w sd ed prev s)) as [[data|e] s1];
      cbn [fst snd] in *.
    + rewrite persist_spec. set (s2 := mkState _ _ _ _ _).
      destruct (IH (date (fst w)) s2) as (rows & Hrows & Hm).
      exists (rows_of product data ++ rows). split.
      * rewrite Hrows. unfold s2. cbn [table].
        now rewrite insert_all_app, Ht1, Ht0.
      * intros r Hin. apply in_app_iff in Hin. destruct Hin as [Hin|Hin];
          [now apply (rows_of_market product data)|now apply Hm].
    + exists []. split; [|intros r []].
      destruct e as [c| | | |key| |]; cbn; congruence.
Qed.

Lemma import_product_table md args n i product s :
  exists rows,
    table (snd (import_product upstream md args n i product s))
    = insert_all rows (table s)
    /\ forall r, In r rows -> market r = product.
Proof.
  unfold import_product, bind.
  destruct (resolve_start_date_frame args product s) as (Ht & _ & _).
  destruct (resolve_start_date args product s) as [[sd|e] s1]; cbn [fst snd] in *.
  - unfold logger at 1. set (s2 := mkState _ _ _ _ _).
    rewrite get_candles_unfold.
    destruct (get_candles_end_date_default md - minutes 300 <? sd).
    + exists []. split; [cbn; exact Ht|intros r []].
    + destruct (get_candles_for_persist_table i n product sd
                  (get_candles_end_date_default md - minutes 300)
                  (daterange sd (get_candles_end_date_default md - minutes 300)
                     (minutes 300)) (date sd) s2) as (rows & Hrows & Hm).
      exists rows. split; [|exact Hm]. rewrite Hrows. unfold s2. cbn [table].
      now rewrite Ht.
  - exists []. split; [cbn; exact Ht|intros r []].
Qed.

(** The requests of the import of a product. *)
Lemma import_product_requests md args n i product s :
  exists l,
    sent (snd (import_product upstream md args n i product s)) = sent s ++ l
    /\ forall rq, In rq l ->
         exists w, rq = candles_request product w
                   /\ snd w = fst w + minutes 300
                   /\ fst w < get_candles_end_date_default md - minutes 300
                   /\ snd w < get_candles_end_date_default md.
Proof.
  unfold import_product, bind.
  destruct (resolve_start_date_frame args product s) as (_ & Hs & _).
  destruct (resolve_start_date args product s) as [[sd|e] s1]; cbn [fst snd] in *.
  - unfold logger at 1. set (s2 := mkState _ _ _ _ _).
    destruct (get_candles_persist upstream i n product sd
                (get_candles_end_date_default md) s2)
      as (_ & _ & (l & Hl & Hreq) & _).
    exists l. split; [rewrite Hl; unfold s2; cbn [sent]; now rewrite Hs|].
    intros rq Hin. destruct (Hreq rq Hin) as (w & -> & H1 & H2 & H3).
    exists w. repeat split; try assumption; lia.
  - exists []. split; [now rewrite app_nil_r|intros rq []].
Qed.

Lemma import_products_requests md args n products :
  forall i s,
  exists l,
    sent (snd (import_products upstream md args n i products s)) = sent s ++ l
    /\ forall rq, In rq l ->
         exists p w, In p products /\ rq = candles_request p w
                     /\ snd w = fst w + minutes 300
                     /\ fst w < get_candles_end_date_default md - minutes 300
                     /\ snd w < get_candles_end_date_default md.
Proof.
  induction products as [|p ps IH]; intros i s.
  - exists []. split; [cbn; now rewrite app_nil_r|intros rq []].
  - cbn [import_products]. unfold bind.
    destruct (import_product_requests md args n i p s) as (l1 & Hl1 & Hreq1).
    destruct (import_product upstream md args n i p s) as [[[]|e] s1];
      cbn [fst snd] in *.
    + destruct (IH (S i) s1) as (l2 & Hl2 & Hreq2).
      exists (l1 ++ l2). split; [rewrite Hl2, Hl1; now rewrite app_assoc|].
      intros rq Hin. apply in_app_iff in Hin. destruct Hin as [Hin|Hin].
      * destruct (Hreq1 rq Hin) as (w & Hw). exists p, w. split; [now left|exact Hw].
      * destruct (Hreq2 rq Hin) as (q & w & Hq & Hw).
        exists q, w. split; [now right|exact Hw].
    + exists l1. split; [exact Hl1|].
      intros rq Hin. destruct (Hreq1 rq Hin) as (w & Hw).
      exists p, w. split; [now left|exact Hw].
Qed.

End DriverRuns.

(** X17.  Whatever the command line, the upstream and the table, every
    request a run of the program makes is a request for the candles of a
    product of the registry, for a window of exactly 300 minutes that
    starts more than 300 minutes before the time the program was started
    and ends before that time. *)
Theorem program_requests (upstream : Upstream) (args : Args) (s : State) :
  exists l,
    sent (snd (program upstream args s)) = sent s ++ l
    /\ forall rq, In rq l ->
         exists p w, In p (map fst PRODUCTS) /\ rq = candles_request p w
                     /\ param_granularity rq = 60
                     /\ snd w = fst w + minutes 300
                     /\ fst w < clock s - minutes 300
                     /\ snd w < clock s.
Proof.
  unfold program, main, create_table, bind, ret, lift.
  assert (Hrun : forall names s1,
            sent s1 = sent s -> incl names (map fst PRODUCTS) ->
            exists l,
              sent (snd (import_products upstream (load_module s) args
                           (length names) 1 names s1)) = sent s ++ l
              /\ forall rq, In rq l ->
                   exists p w, In p (map fst PRODUCTS) /\ rq = candles_request p w
                               /\ param_granularity rq = 60
                               /\ snd w = fst w + minutes 300
                               /\ fst w < clock s - minutes 300
                               /\ snd w < clock s).
  { intros names s1 Hs1 Hincl.
    destruct (import_products_requests upstream (load_module s) args
                (length names) names 1%nat s1) as (l & Hl & Hreq).
    exists l. split; [now rewrite Hl, Hs1|].
    intros rq Hin. destruct (Hreq rq Hin) as (p & w & Hp & -> & H1 & H2 & H3).
    exists p, w. cbn [load_module get_candles_end_date_default] in *.
    repeat split; auto. }
  destruct (selected (arg_product args)) as [p|].
  - destruct (dict_get PRODUCTS p) as [day|e] eqn:Hday.
    + unfold logger at 1. apply Hrun; [reflexivity|].
      intros q [<-|[]]. now apply (dict_get_In PRODUCTS p day).
    + exists []. split; [cbn; now rewrite app_nil_r|intros rq []].
  - unfold logger at 1. apply Hrun; [reflexivity|apply incl_refl].
Qed.




Lemma text_max_fold_In ts t : In (fold_left text_max ts t) (t :: ts).
Proof.
  revert t. induction ts as [|x ts IH]; intros t; [now left|].
  cbn [fold_left]. destruct (IH (text_max t x)) as [H|H]; [|right; now right].
  rewrite <- H. unfold text_max. destruct (String.ltb t x);
    [right; now left|now left].
Qed.

Lemma registry_dates_parse p day :
  In (p, day) PRODUCTS -> exists d, strptime_ymd day = Ok d.
Proof.
  intros H. cbn in H.
  repeat (destruct H as [[= <- <-]|H]; [eexists; vm_compute; reflexivity|]).
  destruct H.
Qed.

Lemma registry_names_distinct : NoDup (map fst PRODUCTS).
Proof.
  cbn.
  repeat (constructor;
          [cbn; intros H; repeat (destruct H as [H|H]; [discriminate H|]); exact H|]).
  constructor.
Qed.

Lemma times_of_In tbl product txt :
  In txt (times_of tbl product) -> exists r, In r tbl /\ time r = txt.
Proof.
  unfold times_of. rewrite in_map_iff. intros (r & Ht & Hin).
  apply filter_In in Hin. exists r. tauto.
Qed.

(** [get_start_date] returns for a product of the registry whose stored
    times are readable. *)
Lemma get_start_date_returns product s :
  In product (map fst PRODUCTS) ->
  (forall txt, In txt (times_of (table s) product) -> readable txt) ->
  exists sd, fst (get_start_date product s) = Ok sd.
Proof.
  intros Hreg Hread. unfold get_start_date, bind, get_table, lift.
  rewrite select_max_time_spec.
  destruct (times_of (table s) product) as [|t ts] eqn:Ht.
  - destruct (dict_get_present PRODUCTS product Hreg) as (day & -> & Hin).
    destruct (registry_dates_parse product day Hin) as [d ->].
    now exists d.
  - destruct (Hread _ (text_max_fold_In ts t)) as (k & -> & Hk).
    unfold utcfromtimestamp.
    replace ((min_timestamp <=? k) && (k <=? max_timestamp)) with true
      by (symmetry; apply andb_true_iff; split; apply Z.leb_le; lia).
    eexists. reflexivity.
Qed.

Lemma import_products_completes upstream md args n products :
  http_only upstream -> arg_start_date args = None ->
  NoDup products -> incl products (map fst PRODUCTS) ->
  forall i s,
    (forall q txt, In q products -> In txt (times_of (table s) q) -> readable txt) ->
    fst (import_products upstream md args n i products s) = Ok tt.
Proof.
  intros Hup Hargs Hnd. induction Hnd as [|p ps Hnotin Hnd IH];
    intros Hincl i s Hread; [reflexivity|].
  cbn [import_products]. unfold bind.
  destruct (import_product_persist upstream md args n i p s) as (_ & _ & Hret).
  destruct (import_product_table upstream md args n i p s) as (rows & Hrows & Hm).
  assert (Hok : fst (import_product upstream md args n i p s) = Ok tt).
  { apply Hret; [exact Hup|]. unfold resolve_start_date. rewrite Hargs.
    apply get_start_date_returns.
    - apply Hincl. now left.
    - intros txt. apply Hread. now left. }
  destruct (import_product upstream md args n i p s) as [[[]|e] s1];
    cbn [fst snd] in *; [|discriminate Hok].
  apply IH.
  - intros q Hq. apply Hincl. now right.
  - intros q txt Hq Htxt. apply (Hread q txt); [now right|].
    unfold times_of in *. rewrite Hrows in Htxt.
    rewrite (insert_all_other_market rows (table s) p q Hm) in Htxt;
      [exact Htxt|].
    intros ->. now apply Hnotin.
Qed.

Lemma http_only_exchange : http_only exchange.
Proof.
  intros n rq. eexists. split; [reflexivity|]. right. eexists. reflexivity.
Qed.

(** X19.  A run never fails when HTTP errors are all the upstream fails
    with and its answers have the documented shape: with no
    [--start-date], a [--product] of the registry or none, a table whose
    stored times are all integers that are seconds of the years 1 to 9999,
    and an upstream that answers every request, and whenever the status is
    not an error with a body that is a JSON array whose items are arrays of
    scalars, [main] returns.  (On a body of another shape, [null] or [[1]]
    say, [len] raises a [TypeError] and [main] does not return; such
    answers are outside the hypothesis.) *)
Theorem main_completes (upstream : Upstream) (md : Module) (args : Args)
    (s : State) :
  http_only upstream ->
  arg_start_date args = None ->
  (forall p, arg_product args = Some p ->
     p = EmptyString \/ In p (map fst PRODUCTS)) ->
  (forall r, In r (table s) -> readable (time r)) ->
  fst (main upstream md args s) = Ok tt.
Proof.
  intros Hup Hargs Hprod Hread.
  assert (Htimes : forall s1 q txt, table s1 = table s ->
            In txt (times_of (table s1) q) -> readable txt).
  { intros s1 q txt Hs1 Hin. rewrite Hs1 in Hin.
    destruct (times_of_In _ _ _ Hin) as (r & Hr & <-). now apply Hread. }
  unfold main, create_table, bind, ret, lift.
  destruct (arg_product args) as [p|] eqn:Hp.
  - destruct (Hprod p eq_refl) as [-> | Hin].
    + cbn [selected]. unfold logger.
      apply import_products_completes; auto using registry_names_distinct, incl_refl.
      intros q txt _. now apply Htimes.
    + destruct p as [|c p']; [cbn [selected]|cbn [selected]].
      * unfold logger.
        apply import_products_completes;
          auto using registry_names_distinct, incl_refl.
        intros q txt _. now apply Htimes.
      * destruct (dict_get_present PRODUCTS _ Hin) as (day & -> & _).
        unfold logger. cbn [map fst].
        apply import_products_completes; auto.
        -- repeat constructor. intros [].
        -- intros q [<-|[]]. exact Hin.
        -- intros q txt _. now apply Htimes.
  - cbn [selected]. unfold logger.
    apply import_products_completes; auto using registry_names_distinct, incl_refl.
    intros q txt _. now apply Htimes.
Qed.

Lemma main_completes_witness :
  let s0 := initial_state (1516165260 * usec_per_second)
              [row_at "BTC-USD" 1516147200] in
  fst (main exchange (load_module s0) (mkArgs None (Some "BTC-USD")) s0) = Ok tt.
Proof.
  intros s0.
  refine (main_completes exchange (load_module s0) (mkArgs None (Some "BTC-USD"))
            s0 http_only_exchange eq_refl _ _).
  - intros p [= <-]. right. cbn. tauto.
  - intros r [<-|[]]. exists 1516147200.
    split; [vm_compute; reflexivity|unfold min_timestamp, max_timestamp; lia].
Defined.
